(** * QRSpeedTest: trial engine, frame throttle and latency statistics

    A shallow embedding of [qrspeedtest/live_benchmark.py],
    [qrspeedtest/camera.py] (the frame path) and [qrspeedtest/stats.py].
    Python [int] is [Z], Python [float] is the kernel's binary64 [float],
    [str] is [string], a [dict] is a [gmap], a [deque] and a [list] are
    lists.  Clock reads ([time.perf_counter_ns]) are arguments. *)

From Stdlib Require Import ZArith Floats PrimFloat SpecFloat FloatOps FloatAxioms.
From stdpp Require Import base gmap strings list sorting pretty.

Set Warnings "-inexact-float".
Local Open Scope Z_scope.

(** ** Python values *)

(** A call either returns or raises. *)
Inductive outcome (A : Type) : Type :=
  | Returned (a : A)
  | Raised.
Arguments Returned {A} a.
Arguments Raised {A}.

(** [float(z)], also the implicit conversion of an [int] operand in
    mixed arithmetic: nearest binary64, ties to even; [OverflowError]
    when the integer is beyond the binary64 range. *)
Definition float_of_int (z : Z) : option float :=
  let f := SF2Prim (binary_normalize prec emax z 0 false) in
  if is_infinity f then None else Some f.

(** [math.floor] and [math.ceil] of a float; both raise on NaN and on
    the infinities. *)
Definition math_floor (x : float) : option Z :=
  match Prim2SF x with
  | S754_zero _ => Some 0
  | S754_finite s m e =>
      let v := if s then Z.neg m else Z.pos m in
      Some (if 0 <=? e then v * 2 ^ e else v / 2 ^ (- e))
  | _ => None
  end.

Definition math_ceil (x : float) : option Z :=
  match Prim2SF x with
  | S754_zero _ => Some 0
  | S754_finite s m e =>
      let v := if s then Z.neg m else Z.pos m in
      Some (if 0 <=? e then v * 2 ^ e else - ((- v) / 2 ^ (- e)))
  | _ => None
  end.

(** [int(x)] truncates towards zero. *)
Definition int_of_float (x : float) : option Z :=
  match Prim2SF x with
  | S754_zero _ => Some 0
  | S754_finite s m e =>
      let v := if s then Z.neg m else Z.pos m in
      Some (if 0 <=? e then v * 2 ^ e else Z.quot v (2 ^ (- e)))
  | _ => None
  end.

(** [l[i]]: a negative index counts from the end, anything out of
    range raises [IndexError]. *)
Definition py_index {A} (l : list A) (i : Z) : option A :=
  if 0 <=? i then l !! Z.to_nat i
  else if - Z.of_nat (length l) <=? i then l !! Z.to_nat (Z.of_nat (length l) + i)
  else None.

(** ** stats.py *)

Module Stats.

(** Insertion behind the values that are not greater: the step of a
    stable sort that only asks [<]. *)
Fixpoint insert_sorted (x : float) (l : list float) : list float :=
  match l with
  | [] => [x]
  | y :: l' => if (x <? y)%float then x :: y :: l' else y :: insert_sorted x l'
  end.

(** [sorted(values)].  Python's sort is stable and only asks [<]; on
    floats without NaN the order is total up to the sign of zero, so the
    result is fixed, and it is computed here by stable insertion.  With
    a NaN among the values the list returned depends on which
    comparisons the sort happens to make, which the language leaves
    open: that case is outside the model, [None]. *)
Definition sorted (values : list float) : option (list float) :=
  if existsb is_nan values then None
  else Some (foldl (fun acc x => insert_sorted x acc) [] values).

(** The last line of [_percentile]:
    [sorted_vals[low] * (1 - frac) + sorted_vals[high] * frac]. *)
Definition interpolate (sorted_vals : list float) (rank : float) (low high : Z)
  : outcome (option float) :=
  match float_of_int low with
  | None => Raised
  | Some flow =>
      let frac := (rank - flow)%float in
      match py_index sorted_vals low, py_index sorted_vals high with
      | Some a, Some b => Returned (Some (a * (1 - frac) + b * frac)%float)
      | _, _ => Raised
      end
  end.

(** [_percentile] from [rank = (len(sorted_vals) - 1) * p] on. *)
Definition at_rank (sorted_vals : list float) (p : float) : outcome (option float) :=
  match float_of_int (Z.of_nat (length sorted_vals) - 1) with
  | None => Raised
  | Some n1 =>
      let rank := (n1 * p)%float in
      match math_floor rank, math_ceil rank with
      | Some low, Some high =>
          if low =? high then
            match int_of_float rank with
            | Some i =>
                match py_index sorted_vals i with
                | Some v => Returned (Some v)
                | None => Raised
                end
            | None => Raised
            end
          else interpolate sorted_vals rank low high
      | _, _ => Raised
      end
  end.

(** [_percentile]; [None] only where [sorted] is outside the model,
    on two or more values one of which is NaN. *)
Definition _percentile (values : list float) (p : float)
  : option (outcome (option float)) :=
  match values with
  | [] => Some (Returned None)
  | [v] => Some (Returned (Some v))
  | _ => match sorted values with
         | Some sorted_vals => Some (at_rank sorted_vals p)
         | None => None
         end
  end.

End Stats.

(** ** config.py *)

Record LiveBenchmarkConfig : Type := {
  trials : Z;
  timeout_s : float;
  warmup_s : float;
  resolution_preset : string;
  cfg_throttle_n_frames : Z;
  cfg_parallel_decode : bool;
  confirmations_required : Z;
  confirmation_window_ms : float
}.

(** [LiveBenchmarkConfig()] with the dataclass defaults. *)
Definition default_config : LiveBenchmarkConfig := {|
  trials := 10;
  timeout_s := 3.0;
  warmup_s := 2.0;
  resolution_preset := "1280x720";
  cfg_throttle_n_frames := 1;
  cfg_parallel_decode := true;
  confirmations_required := 2;
  confirmation_window_ms := 500.0
|}.

(** ** logger.py *)

Record EventRow : Type := {
  timestamp_ns : Z;
  mode : string;
  decoder : string;
  event_type : string;
  trial_id : option Z;
  frame_index : option Z;
  conversion_ms : option float;
  decode_duration_ms : option float;
  payload_string : option string;
  payload_changed : option bool
}.

(** [StructuredLogger.log]: the keywords the callers pass,
    every other field at its default [None]; the row is appended. *)
Definition log (ts : Z) (md : string) (tid : option Z) (dec ev : string)
    (fidx : option Z) (payload : option string) (events : list EventRow)
  : list EventRow :=
  events ++ [ {| timestamp_ns := ts; mode := md; decoder := dec; event_type := ev;
                 trial_id := tid; frame_index := fidx; conversion_ms := None;
                 decode_duration_ms := None; payload_string := payload;
                 payload_changed := None |} ].

(** ** live_benchmark.py *)

Module Live.

Definition DECODERS : list string := ["AVFOUNDATION"; "VISION"; "ZXING"].

Record TrialDecoderState : Type := {
  first_detect_ns : option Z;
  confirm_detect_ns : option Z;
  history : list (string * Z)
}.

(** [TrialDecoderState()] *)
Definition fresh_state : TrialDecoderState :=
  {| first_detect_ns := None; confirm_detect_ns := None; history := [] |}.

Record TrialRecord : Type := {
  trial_id : Z;
  t0_ns : Z;
  timeout_ns : Z;
  per_decoder : gmap string TrialDecoderState
}.

Record Controller : Type := {
  logger : list EventRow;
  config : LiveBenchmarkConfig;
  _trials : gmap Z TrialRecord;
  _active_trial_id : option Z
}.

(** [LiveBenchmarkController(logger, config)] *)
Definition new_controller (events : list EventRow) (cfg : LiveBenchmarkConfig)
  : Controller :=
  {| logger := events; config := cfg; _trials := ∅; _active_trial_id := None |}.

Definition set_logger (events : list EventRow) (c : Controller) : Controller :=
  {| logger := events; config := config c; _trials := _trials c;
     _active_trial_id := _active_trial_id c |}.

Definition start_trial (tid t0 : Z) (c : Controller) : Controller * outcome unit :=
  match int_of_float (timeout_s (config c) * 1e9)%float with
  | None => (c, Raised)
  | Some span =>
      let rec := {| trial_id := tid; t0_ns := t0; timeout_ns := t0 + span;
                    per_decoder := ∅ |} in
      ({| logger := log t0 "live" (Some tid) "SYSTEM" "TRIAL_START" None None (logger c);
          config := config c;
          _trials := <[tid := rec]> (_trials c);
          _active_trial_id := Some tid |},
       Returned ())
  end.

(** [now] is the value [time.perf_counter_ns()] returns. *)
Definition end_trial (now : Z) (tid : Z) (c : Controller) : Controller * outcome unit :=
  (set_logger (log now "live" (Some tid) "SYSTEM" "TRIAL_END" None None (logger c)) c,
   Returned ()).

Definition current_trial_id (c : Controller) : option Z := _active_trial_id c.

(** The [while] loop that pops the left end of the history. *)
Fixpoint evict (window_ns ts_ns : Z) (h : list (string * Z)) : list (string * Z) :=
  match h with
  | [] => []
  | (p, t) :: rest => if window_ns <? ts_ns - t then evict window_ns ts_ns rest else h
  end.

(** [sum(1 for p, _ in state.history if p == payload)] *)
Definition count_payload (payload : string) (h : list (string * Z)) : Z :=
  Z.of_nat (length (filter (λ e, e.1 = payload) h)).

(** The confirmation branch, on a state whose history is already
    updated; [count] is the matching-payload count. *)
Definition confirm (cfg : LiveBenchmarkConfig) (dec : string) (ts_ns count : Z)
    (state : TrialDecoderState) : option Z :=
  match confirm_detect_ns state with
  | Some c => Some c
  | None =>
      if bool_decide (dec = "AVFOUNDATION")
         && (1 <? confirmations_required cfg)
         && (count <? confirmations_required cfg)
      then first_detect_ns state
      else if confirmations_required cfg <=? count then Some ts_ns
      else None
  end.

(** What [on_detection] does to [trial.per_decoder[decoder]] once the
    detection is accepted.  When [int(confirmation_window_ms * 1e6)]
    raises, the first-detection stamp is already written. *)
Definition detect (cfg : LiveBenchmarkConfig) (dec : string) (ts_ns : Z)
    (payload : string) (state : TrialDecoderState)
  : TrialDecoderState * outcome unit :=
  let first :=
    match first_detect_ns state with None => Some ts_ns | Some f => Some f end in
  match int_of_float (confirmation_window_ms cfg * 1e6)%float with
  | None =>
      ({| first_detect_ns := first; confirm_detect_ns := confirm_detect_ns state;
          history := history state |}, Raised)
  | Some window_ns =>
      let h := evict window_ns ts_ns (history state ++ [(payload, ts_ns)]) in
      let state1 := {| first_detect_ns := first;
                       confirm_detect_ns := confirm_detect_ns state;
                       history := h |} in
      ({| first_detect_ns := first;
          confirm_detect_ns := confirm cfg dec ts_ns (count_payload payload h) state1;
          history := h |}, Returned ())
  end.

Definition set_decoder_state (dec : string) (state : TrialDecoderState)
    (t : TrialRecord) : TrialRecord :=
  {| trial_id := trial_id t; t0_ns := t0_ns t; timeout_ns := timeout_ns t;
     per_decoder := <[dec := state]> (per_decoder t) |}.

Definition on_detection (dec : string) (ts_ns : Z) (payload : string) (c : Controller)
  : Controller * outcome unit :=
  match _active_trial_id c with
  | None => (c, Returned ())
  | Some tid =>
      match _trials c !! tid with
      | None => (c, Returned ())
      | Some trial =>
          if (ts_ns <? t0_ns trial) || (timeout_ns trial <? ts_ns)
          then (c, Returned ())
          else
            (* [trial.per_decoder[decoder]] on a defaultdict *)
            let state := default fresh_state (per_decoder trial !! dec) in
            let '(state', r) := detect (config c) dec ts_ns payload state in
            let trials' := <[tid := set_decoder_state dec state' trial]> (_trials c) in
            match r with
            | Raised =>
                ({| logger := logger c; config := config c; _trials := trials';
                    _active_trial_id := _active_trial_id c |}, Raised)
            | Returned _ =>
                ({| logger := log ts_ns "live" (Some tid) dec "PAYLOAD_DETECTED" None
                                  (Some payload) (logger c);
                    config := config c; _trials := trials';
                    _active_trial_id := _active_trial_id c |}, Returned ())
            end
      end
  end.

(** One dictionary of [trials_summary_rows]. *)
Record SummaryRow : Type := {
  row_trial_id : Z;
  row_decoder : string;
  success : bool;
  first_detect_latency_ms : option float;
  confirm_detect_latency_ms : option float
}.

(** Truth value of an [int | None]: [None] and [0] are false. *)
Definition truthy (o : option Z) : bool :=
  match o with
  | None => false
  | Some z => negb (z =? 0)
  end.

(** [((x - t0) / 1e6) if x else None] *)
Definition latency_ms (o : option Z) (t0 : Z) : outcome (option float) :=
  match o with
  | None => Returned None
  | Some z =>
      if z =? 0 then Returned None
      else match float_of_int (z - t0) with
           | None => Raised
           | Some d => Returned (Some (d / 1e6)%float)
           end
  end.

Definition summary_row (tid : Z) (trial : TrialRecord) (dec : string)
  : outcome SummaryRow :=
  let state := default fresh_state (per_decoder trial !! dec) in
  match latency_ms (first_detect_ns state) (t0_ns trial) with
  | Raised => Raised
  | Returned first_ms =>
      match latency_ms (confirm_detect_ns state) (t0_ns trial) with
      | Raised => Raised
      | Returned confirm_ms =>
          Returned {| row_trial_id := tid; row_decoder := dec;
                      success := truthy (first_detect_ns state);
                      first_detect_latency_ms := first_ms;
                      confirm_detect_latency_ms := confirm_ms |}
      end
  end.

(** Rows are appended one by one; the first failing conversion aborts. *)
Fixpoint collect_rows (todo : list (Z * TrialRecord * string)) (rows : list SummaryRow)
  : outcome (list SummaryRow) :=
  match todo with
  | [] => Returned rows
  | (tid, trial, dec) :: todo' =>
      match summary_row tid trial dec with
      | Raised => Raised
      | Returned row => collect_rows todo' (rows ++ [row])
      end
  end.

(** [sorted(self._trials.items())]: the keys of a dict are distinct, so
    the pairs are ordered by trial id alone. *)
Definition item_le (a b : Z * TrialRecord) : Prop := a.1 ≤ b.1.

#[global] Instance item_le_dec : RelDecision item_le :=
  λ a b, decide (a.1 ≤ b.1).

Definition sorted_items (m : gmap Z TrialRecord) : list (Z * TrialRecord) :=
  merge_sort item_le (map_to_list m).

Definition trials_summary_rows (c : Controller) : outcome (list SummaryRow) :=
  collect_rows
    (item ← sorted_items (_trials c); (λ dec, (item.1, item.2, dec)) <$> DECODERS)
    [].

(** The calls a controller can receive, and their effect in sequence;
    a call that raises leaves the state it had reached. *)
Inductive Call : Type :=
  | StartTrial (tid t0 : Z)
  | EndTrial (now tid : Z)
  | OnDetection (dec : string) (ts_ns : Z) (payload : string).

Definition step (call : Call) (c : Controller) : Controller :=
  match call with
  | StartTrial tid t0 => (start_trial tid t0 c).1
  | EndTrial now tid => (end_trial now tid c).1
  | OnDetection dec ts payload => (on_detection dec ts payload c).1
  end.

Definition run (calls : list Call) (c : Controller) : Controller :=
  foldl (λ c call, step call c) c calls.

(** The state of a (trial, decoder) pair, when there is one. *)
Definition pair_state (c : Controller) (tid : Z) (dec : string)
  : option TrialDecoderState :=
  trial ← _trials c !! tid; per_decoder trial !! dec.

End Live.

(** ** camera.py, the frame path *)

Module Camera.

Record CameraMetrics : Type := {
  frames_received : Z;
  frames_processed : Z;
  dropped_frames : Z
}.

(** What [_executor.submit] is given: [run_decode(decoder, name)] for
    one backend, or the lambda that runs both backends in turn.  Each
    closure captures the frame index. *)
Inductive Task : Type :=
  | RunDecode (name : string) (frame_idx : Z)
  | RunDecodeBoth (frame_idx : Z).

(** The session between [start] and [stop].  [_executor] is the work
    queue of the [ThreadPoolExecutor], which has no bound: [submit]
    appends and returns at once.  [_decode_queue] is the
    [queue.Queue(maxsize=2)] built by the constructor. *)
Record SharedCameraSession : Type := {
  logger : list EventRow;
  throttle_n_frames : Z;
  parallel_decode : bool;
  metrics : CameraMetrics;
  session_dropped_frames : Z;
  _frame_index : Z;
  _executor : list Task;
  _decode_queue : list Z
}.

Definition max_workers : Z := 4.
Definition decode_queue_maxsize : Z := 2.

(** [SharedCameraSession(logger, decoder_callback, throttle_n_frames,
    parallel_decode)] *)
Definition new_session (events : list EventRow) (throttle : Z) (parallel : bool)
  : SharedCameraSession :=
  {| logger := events;
     throttle_n_frames := Z.max 1 throttle;
     parallel_decode := parallel;
     metrics := {| frames_received := 0; frames_processed := 0; dropped_frames := 0 |};
     session_dropped_frames := 0;
     _frame_index := 0;
     _executor := [];
     _decode_queue := [] |}.

(** The submissions of one sampled frame. *)
Definition submissions (parallel : bool) (frame_idx : Z) : list Task :=
  if parallel then [RunDecode "VISION" frame_idx; RunDecode "ZXING" frame_idx]
  else [RunDecodeBoth frame_idx].

(** [a % b] on integers: floored, [ZeroDivisionError] on [b = 0]. *)
Definition py_mod (a b : Z) : option Z :=
  if b =? 0 then None else Some (a mod b).

(** [now] is the value [time.perf_counter_ns()] returns.  The image
    conversion between the throttle test and the submissions is a
    sequence of native calls without effect on the session. *)
Definition on_video_sample (now : Z) (s : SharedCameraSession)
  : SharedCameraSession * outcome unit :=
  let metrics' := {| frames_received := frames_received (metrics s) + 1;
                     frames_processed := frames_processed (metrics s);
                     dropped_frames := dropped_frames (metrics s) |} in
  let frame_idx := _frame_index s + 1 in
  let events := log now "live" None "PIPELINE" "FRAME_RECEIVED" (Some frame_idx) None
                    (logger s) in
  let counted queue :=
    {| logger := events;
       throttle_n_frames := throttle_n_frames s;
       parallel_decode := parallel_decode s;
       metrics := metrics';
       session_dropped_frames := session_dropped_frames s;
       _frame_index := frame_idx;
       _executor := queue;
       _decode_queue := _decode_queue s |} in
  match py_mod frame_idx (throttle_n_frames s) with
  | None => (counted (_executor s), Raised)
  | Some r =>
      if negb (r =? 0) then (counted (_executor s), Returned ())
      else (counted (_executor s ++ submissions (parallel_decode s) frame_idx),
            Returned ())
  end.

(** Frames delivered one after the other, at the given clock reads. *)
Definition deliver (nows : list Z) (s : SharedCameraSession) : SharedCameraSession :=
  foldl (λ s now, (on_video_sample now s).1) s nows.

(** The frame a submitted task decodes. *)
Definition task_frame (t : Task) : Z :=
  match t with
  | RunDecode _ i => i
  | RunDecodeBoth i => i
  end.

End Camera.

(** ** Traces of calls *)

Module LiveTraces.
Import Live.

(** The trial that takes a detection stamped [ts]: the active one, when
    [ts] is inside its closed interval. *)
Definition accepting (c : Controller) (ts : Z) : option (Z * TrialRecord) :=
  tid ← _active_trial_id c;
  trial ← _trials c !! tid;
  if (ts <? t0_ns trial) || (timeout_ns trial <? ts) then None else Some (tid, trial).

Definition is_start (call : Call) : bool :=
  match call with
  | StartTrial _ _ => true
  | _ => false
  end.

(** The detections of decoder [dec] among [calls] that a trial with
    bounds [t0] and [tmax] takes, in arrival order. *)
Definition accepted_for (dec : string) (t0 tmax : Z) (calls : list Call)
  : list (Z * string) :=
  omap (λ call,
          match call with
          | OnDetection d ts payload =>
              if bool_decide (d = dec) && (t0 <=? ts) && (ts <=? tmax)
              then Some (ts, payload) else None
          | _ => None
          end) calls.

(** [detect] over a list of accepted detections, from the entry of
    the pair in [per_decoder], which the first detection creates. *)
Definition detect_all (cfg : LiveBenchmarkConfig) (dec : string)
    (ds : list (Z * string)) (entry : option TrialDecoderState)
  : option TrialDecoderState :=
  foldl (λ o d, Some (detect cfg dec d.1 d.2 (default fresh_state o)).1) entry ds.

(** The matching-payload count within the confirmation window: the
    number of detections, among those seen before and the new one
    itself, that carry [payload] and are no older than [w] ns relative
    to the new timestamp [ts]. *)
Definition window_count (w : Z) (seen : list (Z * string)) (ts : Z) (payload : string)
  : Z :=
  Z.of_nat (length (filter (λ d, d.2 = payload ∧ ts - d.1 ≤ w)
                      (seen ++ [(ts, payload)]))).

(** The timestamp of the first detection of [ds] at which the count
    within the window is at least [req], [seen] being the detections
    before [ds]. *)
Fixpoint first_reaching (w req : Z) (seen ds : list (Z * string)) : option Z :=
  match ds with
  | [] => None
  | (ts, payload) :: ds' =>
      if req <=? window_count w seen ts payload then Some ts
      else first_reaching w req (seen ++ [(ts, payload)]) ds'
  end.

(** Detections in non-decreasing timestamp order. *)
Definition ts_ordered (ds : list (Z * string)) : Prop :=
  StronglySorted (λ a b, a.1 ≤ b.1) ds.



(** The state of the passive decoder once it has seen a detection. *)
Definition passive_latched (st : TrialDecoderState) : Prop :=
  confirm_detect_ns st = first_detect_ns st ∧ is_Some (first_detect_ns st).

(** History entries compared by timestamp. *)
Definition ts_le (a b : string * Z) : Prop := a.2 ≤ b.2.



(** A controller with the default configuration, before and after
    [start_trial(1, 0)]; the trial ends at 3 000 000 000 ns. *)
Definition idle : Controller := new_controller [] default_config.
Definition trial1 : Controller := (start_trial 1 0 idle).1.
Definition record1 : TrialRecord :=
  {| trial_id := 1; t0_ns := 0; timeout_ns := 3000000000; per_decoder := ∅ |}.

End LiveTraces.

(** ** Invariants of the trial map *)

Module LiveInvariants.
Import Live LiveTraces.

(** Every timestamp a pair holds lies in the closed interval of its
    trial. *)
Definition in_bounds (trial : TrialRecord) (st : TrialDecoderState) : Prop :=
  (∀ f, first_detect_ns st = Some f → t0_ns trial ≤ f ≤ timeout_ns trial)
  ∧ (∀ k, confirm_detect_ns st = Some k → t0_ns trial ≤ k ≤ timeout_ns trial)
  ∧ Forall (λ e, t0_ns trial ≤ e.2 ≤ timeout_ns trial) (history st).

(** A trial map as the controller builds it: each record is filed under
    its own id, its timeout is its start plus the configured span, and
    every pair of it is within the record's bounds. *)
Definition bounded_controller (c : Controller) : Prop :=
  ∀ tid trial, _trials c !! tid = Some trial →
    trial_id trial = tid
    ∧ int_of_float (timeout_s (config c) * 1e9)%float
      = Some (timeout_ns trial - t0_ns trial)
    ∧ ∀ dec st, per_decoder trial !! dec = Some st → in_bounds trial st.

(** [StartTrial] for the given trial. *)
Definition starts (tid : Z) (call : Call) : bool :=
  match call with
  | StartTrial tid' _ => bool_decide (tid' = tid)
  | _ => false
  end.

(** The payloads among the accepted detections [ds] equal to [payload]. *)
Definition matching (payload : string) (ds : list (Z * string)) : list (Z * string) :=
  filter (λ d, d.2 = payload) ds.

End LiveInvariants.

(** ** live_benchmark.py, the scripted run *)

Module Scripted.
Import Live.

Section RunScripted.

(** [time.sleep]: for which durations it returns is the platform's. *)
Variable sleep : float → outcome unit.
(** The [t0_provider] callable, the clock read of each [end_trial], and
    the detections the decoder threads deliver while trial [i] sleeps. *)
Variable t0_provider : Z → Z.
Variable clock : Z → Z.
Variable arrivals : Z → list (string * Z * string).

Definition arrival_calls (i : Z) : list Call :=
  (λ d, OnDetection d.1.1 d.1.2 d.2) <$> arrivals i.

(** The body of the [for] loop, over the remaining values of [i]. *)
Fixpoint scripted (ids : list Z) (c : Controller) : Controller * outcome unit :=
  match ids with
  | [] => (c, Returned ())
  | i :: ids' =>
      match start_trial i (t0_provider i) c with
      | (c1, Raised) => (c1, Raised)
      | (c1, Returned _) =>
          match sleep (timeout_s (config c1)) with
          | Raised => (c1, Raised)
          | Returned _ =>
              let c2 := run (arrival_calls i) c1 in
              scripted ids' (end_trial (clock i) i c2).1
          end
      end
  end.

(** [range(1, self.config.trials + 1)] is built once, on entry. *)
Definition run_scripted_trials (c : Controller) : Controller * outcome unit :=
  scripted (seqZ 1 (trials (config c))) c.

End RunScripted.

End Scripted.

(** ** camera.py and app.py, the callbacks *)

Module Pipeline.
Import Camera.

(** [VideoDelegate.captureOutput_didDropSampleBuffer_fromConnection_]:
    [self.owner.dropped_frames += 1], on the session itself. *)
Definition on_drop (s : SharedCameraSession) : SharedCameraSession :=
  {| logger := logger s;
     throttle_n_frames := throttle_n_frames s;
     parallel_decode := parallel_decode s;
     metrics := metrics s;
     session_dropped_frames := session_dropped_frames s + 1;
     _frame_index := _frame_index s;
     _executor := _executor s;
     _decode_queue := _decode_queue s |}.

(** What the video output tells its delegate: a frame, at the given
    clock read, or a drop. *)
Inductive Signal : Type :=
  | Frame (now : Z)
  | Dropped.

Definition signal (sig : Signal) (s : SharedCameraSession) : SharedCameraSession :=
  match sig with
  | Frame now => (on_video_sample now s).1
  | Dropped => on_drop s
  end.

Definition signals (sigs : list Signal) (s : SharedCameraSession) : SharedCameraSession :=
  foldl (λ s sig, signal sig s) s sigs.

(** The clock reads of the frames among the signals. *)
Definition frame_times (sigs : list Signal) : list Z :=
  omap (λ sig, match sig with Frame now => Some now | Dropped => None end) sigs.

(** The number of drops among the signals. *)
Definition drop_count (sigs : list Signal) : Z :=
  Z.of_nat (length (omap (λ sig, match sig with
                                 | Frame _ => None
                                 | Dropped => Some ()
                                 end) sigs)).

(** The FRAME_RECEIVED rows of frames numbered from [first], one per
    clock read. *)
Fixpoint frame_rows (first : Z) (nows : list Z) : list EventRow :=
  match nows with
  | [] => []
  | now :: nows' =>
      {| timestamp_ns := now; mode := "live"; decoder := "PIPELINE";
         event_type := "FRAME_RECEIVED"; trial_id := None;
         frame_index := Some first; conversion_ms := None;
         decode_duration_ms := None; payload_string := None;
         payload_changed := None |} :: frame_rows (first + 1) nows'
  end.

(** decoders.py: what a backend hands back. *)
Record DecodeResult : Type := {
  payload : option string;
  dr_conversion_ms : option float;
  decode_ms : float
}.

(** Truth value of a [str | None]: [None] and the empty string are
    false. *)
Definition nonempty (o : option string) : option string :=
  match o with
  | Some "" => None
  | _ => o
  end.

(** The application once the camera exists: the one [StructuredLogger]
    that the controller and the session both hold, the controller and
    the session.  The [logger] fields inside the two components stand for
    that shared object and are refreshed from it before each use. *)
Record MainWindowController : Type := {
  app_logger : list EventRow;
  live_controller : Live.Controller;
  camera : SharedCameraSession
}.

Definition set_app_logger (events : list EventRow) (a : MainWindowController)
  : MainWindowController :=
  {| app_logger := events; live_controller := live_controller a; camera := camera a |}.

(** [MainWindowController._decoder_event]: the frame index and the two
    costs are dropped, the rest goes to the controller. *)
Definition _decoder_event (dec : string) (ts_ns : Z) (payload_ : string)
    (frame_idx : option Z) (conv dec_ms : option float) (a : MainWindowController)
  : MainWindowController * outcome unit :=
  let '(c', r) :=
    Live.on_detection dec ts_ns payload_
      (Live.set_logger (app_logger a) (live_controller a)) in
  ({| app_logger := Live.logger c'; live_controller := c'; camera := camera a |}, r).



(** One run of a backend inside [run_decode]: the clock read before,
    what [decode_cgimage] does, the clock read after. *)
Record DecodeRun : Type := {
  start_ns : Z;
  decoded : outcome DecodeResult;
  end_ns : Z
}.

Definition count_processed (s : SharedCameraSession) : SharedCameraSession :=
  {| logger := logger s;
     throttle_n_frames := throttle_n_frames s;
     parallel_decode := parallel_decode s;
     metrics := {| frames_received := frames_received (metrics s);
                   frames_processed := frames_processed (metrics s) + 1;
                   dropped_frames := dropped_frames (metrics s) |};
     session_dropped_frames := session_dropped_frames s;
     _frame_index := _frame_index s;
     _executor := _executor s;
     _decode_queue := _decode_queue s |}.

(** The closure [run_decode(decoder, name)] of [on_video_sample], for
    the frame [frame_idx] it captured. *)
Definition run_decode (name : string) (frame_idx : Z) (r : DecodeRun)
    (a : MainWindowController) : MainWindowController * outcome unit :=
  let a1 :=
    set_app_logger
      (log (start_ns r) "live" None name "DECODE_START" (Some frame_idx) None
         (app_logger a)) a in
  match decoded r with
  | Raised => (a1, Raised)
  | Returned result =>
      let row :=
        {| timestamp_ns := end_ns r; mode := "live"; decoder := name;
           event_type := "DECODE_END"; trial_id := None;
           frame_index := Some frame_idx;
           conversion_ms := dr_conversion_ms result;
           decode_duration_ms := Some (decode_ms result);
           payload_string := payload result; payload_changed := None |} in
      let a2 :=
        {| app_logger := app_logger a1 ++ [row];
           live_controller := live_controller a1;
           camera := count_processed (camera a1) |} in
      match nonempty (payload result) with
      | None => (a2, Returned ())
      | Some payload_ =>
          _decoder_event name (end_ns r) payload_ (Some frame_idx)
            (dr_conversion_ms result) (Some (decode_ms result)) a2
      end
  end.

(** A submitted task, run by a worker: one backend, or VISION then
    ZXING inside one tuple expression. *)
Definition run_task (t : Task) (vision zxing : DecodeRun) (a : MainWindowController)
  : MainWindowController * outcome unit :=
  match t with
  | RunDecode name frame_idx =>
      run_decode name frame_idx
        (if bool_decide (name = "VISION") then vision else zxing) a
  | RunDecodeBoth frame_idx =>
      match run_decode "VISION" frame_idx vision a with
      | (a', Raised) => (a', Raised)
      | (a', Returned _) => run_decode "ZXING" frame_idx zxing a'
      end
  end.

#[global] Instance task_eq_dec : EqDecision Task.
Proof. solve_decision. Defined.

(** The work queue without its first task equal to [t]; [None] when no
    such task is queued. *)
Fixpoint dequeue (t : Task) (queue : list Task) : option (list Task) :=
  match queue with
  | [] => None
  | t' :: rest =>
      if decide (t' = t) then Some rest else (t' ::.) <$> dequeue t rest
  end.

(** A worker takes the task [t] off the work queue of the executor. *)
Definition take_task (t : Task) (s : SharedCameraSession)
  : option SharedCameraSession :=
  match dequeue t (_executor s) with
  | None => None
  | Some queue =>
      Some {| logger := logger s;
              throttle_n_frames := throttle_n_frames s;
              parallel_decode := parallel_decode s;
              metrics := metrics s;
              session_dropped_frames := session_dropped_frames s;
              _frame_index := _frame_index s;
              _executor := queue;
              _decode_queue := _decode_queue s |}
  end.

(** The workers take queued tasks and run them to completion one after
    the other, in the order given.  A job names the task taken and what
    the two backends do on its frame; a task that is not in the queue
    was never submitted and is not run. *)
Fixpoint run_tasks (jobs : list (Task * DecodeRun * DecodeRun))
    (a : MainWindowController) : MainWindowController :=
  match jobs with
  | [] => a
  | (t, vision, zxing) :: jobs' =>
      match take_task t (camera a) with
      | None => run_tasks jobs' a
      | Some cam =>
          run_tasks jobs'
            (run_task t vision zxing
               {| app_logger := app_logger a;
                  live_controller := live_controller a;
                  camera := cam |}).1
      end
  end.

(** The number of backend runs a task makes. *)
Definition task_decodes (t : Task) : Z :=
  match t with
  | RunDecode _ _ => 1
  | RunDecodeBoth _ => 2
  end.

End Pipeline.

(** ** What the callbacks feed the trial engine *)

Module PipelineTraces.
Import Pipeline LiveTraces.

(** Two controllers that differ at most in their log. *)
Definition same_engine (c c' : Live.Controller) : Prop :=
  Live._trials c = Live._trials c'
  ∧ Live._active_trial_id c = Live._active_trial_id c'
  ∧ Live.config c = Live.config c'.


(** The detection one backend run hands to the engine, if any. *)
Definition decode_calls (name : string) (r : DecodeRun) : list Live.Call :=
  match decoded r with
  | Returned result =>
      match nonempty (payload result) with
      | Some p => [Live.OnDetection name (end_ns r) p]
      | None => []
      end
  | Raised => []
  end.

Definition task_calls (job : Camera.Task * DecodeRun * DecodeRun) : list Live.Call :=
  match job.1.1 with
  | Camera.RunDecode name _ =>
      decode_calls name (if bool_decide (name = "VISION") then job.1.2 else job.2)
  | Camera.RunDecodeBoth _ =>
      decode_calls "VISION" job.1.2 ++ decode_calls "ZXING" job.2
  end.

Definition returns (r : DecodeRun) : bool :=
  match decoded r with
  | Returned _ => true
  | Raised => false
  end.

(** Every backend run the task makes returns. *)
Definition job_returns (job : Camera.Task * DecodeRun * DecodeRun) : bool :=
  match job.1.1 with
  | Camera.RunDecode name _ =>
      returns (if bool_decide (name = "VISION") then job.1.2 else job.2)
  | Camera.RunDecodeBoth _ => returns job.1.2 && returns job.2
  end.

Definition total_decodes (tasks : list Camera.Task) : Z :=
  foldr (λ t acc, task_decodes t + acc) 0 tasks.

End PipelineTraces.

(** ** logger.py, the header of an export *)

Module LoggerExport.

(** The loop of [StructuredLogger.export_csv] that collects the
    columns: a row is given by its keys, in the order of the dict;
    [keys] is the list being built and [seen] the set beside it. *)
Definition add_key (st : list string * gset string) (key : string)
  : list string * gset string :=
  if decide (key ∈ st.2) then st else (st.1 ++ [key], st.2 ∪ {[key]}).

Definition add_row (st : list string * gset string) (row : list string)
  : list string * gset string :=
  foldl add_key st row.

Definition export_csv_keys (rows : list (list string)) : list string :=
  match rows with
  | [] => []
  | _ => (foldl add_row ([], ∅) rows).1
  end.

(** The elements of a list in the order of their first occurrence. *)
Definition first_occurrences (l : list string) : list string :=
  reverse (remove_dups (reverse l)).

End LoggerExport.

(** ** stats.py, order statistics and the rank of the 95th percentile *)

Module StatsChecks.

(** No value is NaN. *)
Definition nan_free (values : list float) : Prop :=
  Forall (λ v, is_nan v = false) values.

(** A list in ascending order, by [<=] on floats. *)
Definition ascending (s : list float) : Prop :=
  StronglySorted (λ a b, (a <=? b)%float = true) s.

(** A non-NaN float as a point of a lexicographic order: the sign
    class, then the exponent, then the mantissa. *)
Definition key (f : spec_float) : Z * Z * Z :=
  match f with
  | S754_infinity true => (-2, 0, 0)
  | S754_finite true m e => (-1, - e, - Z.pos m)
  | S754_zero _ => (0, 0, 0)
  | S754_nan => (0, 0, 0)
  | S754_finite false m e => (1, e, Z.pos m)
  | S754_infinity false => (2, 0, 0)
  end.

Definition key_le (a b : Z * Z * Z) : Prop :=
  a.1.1 < b.1.1 ∨ (a.1.1 = b.1.1 ∧ (a.1.2 < b.1.2 ∨ (a.1.2 = b.1.2 ∧ a.2 ≤ b.2))).

Definition key_lt (a b : Z * Z * Z) : Prop :=
  a.1.1 < b.1.1 ∨ (a.1.1 = b.1.1 ∧ (a.1.2 < b.1.2 ∨ (a.1.2 = b.1.2 ∧ a.2 < b.2))).

(** The floor and the ceiling of the exact rank [(n - 1) * 95 / 100] of
    [n] values. *)
Definition exact_low (n : Z) : Z := 19 * (n - 1) / 20.
Definition exact_high (n : Z) : Z := - (- (19 * (n - 1)) / 20).

(** For [n] values, the rank [(n - 1) * 0.95] computed on floats has
    the floor and the ceiling of the exact rank, these are positions of
    the list, and the floor converts back to a float. *)
Definition rank_exact (n : Z) : bool :=
  match float_of_int (n - 1) with
  | Some n1 =>
      let rank := (n1 * 0.95)%float in
      match math_floor rank, math_ceil rank with
      | Some low, Some high =>
          (low =? exact_low n) && (high =? exact_high n)
          && (0 <=? low) && (high <? n)
          && match float_of_int low with Some _ => true | None => false end
      | _, _ => false
      end
  | None => false
  end.

End StatsChecks.

(** ** stimulus.py *)

Module Stimulus.

(** [a / b] on two ints: the quotient rounded once to the nearest
    binary64, ties to even, whatever the size of the operands (the
    quotient is cut after 66 bits or more, with one more bit recording
    what was cut off).  [ZeroDivisionError] on [b = 0], [OverflowError]
    beyond the binary64 range; a zero quotient has the sign of the
    operands. *)
Definition int_truediv (a b : Z) : option float :=
  if b =? 0 then None
  else
    let negate := xorb (a <? 0) (b <? 0) in
    if a =? 0 then Some (if negate then (-0)%float else 0%float)
    else
      let k := Z.max 0 (Z.log2 (Z.abs b) - Z.log2 (Z.abs a) + 66) in
      let q := Z.abs a * 2 ^ k / Z.abs b in
      let sticky := if (Z.abs a * 2 ^ k) mod Z.abs b =? 0 then 0 else 1 in
      let m := 2 * q + sticky in
      let f := SF2Prim (binary_normalize prec emax (if negate then - m else m)
                          (- k - 1) false) in
      if is_infinity f then None else Some f.

(** [min(1.0, x)]: [x] when [x < 1.0], else [1.0]. *)
Definition min_one (x : float) : float :=
  if (x <? 1)%float then x else 1%float.

Record StimulusConfig : Type := {
  fade_duration_ms : Z;
  hold_duration_ms : Z;
  gap_duration_ms : Z;
  stim_trials : Z;
  payload_base : string
}.

(** [StimulusConfig()] with the dataclass defaults. *)
Definition default_stimulus : StimulusConfig := {|
  fade_duration_ms := 1500;
  hold_duration_ms := 1000;
  gap_duration_ms := 1000;
  stim_trials := 10;
  payload_base := "QRSpeedTest"
|}.

Record StimulusEvent : Type := {
  ev_trial_id : Z;
  ev_t0_ns : Z;
  ev_payload : string
}.

(** A one-shot [NSTimer] waiting on the run loop: its interval, its
    selector and its [userInfo].  The image of a QR code is given by the
    payload it encodes. *)
Inductive Selector : Type :=
  | FadeStep (idx : Z) (ci : string)
  | HoldDone
  | GapDone.

Record Timer : Type := {
  interval_s : float;
  selector : Selector
}.

Record StimulusView : Type := {
  alpha_value : float;
  ci_image : option string
}.

(** The controller, the timers it has scheduled and not yet seen fire,
    and the events [trial_callback] has been called with, in order. *)
Record StimulusController : Type := {
  stim_config : StimulusConfig;
  current_trial : Z;
  view : StimulusView;
  timers : list Timer;
  callbacks : list StimulusEvent
}.

(** [StimulusView.set_ciimage_alpha_] *)
Definition set_ciimage_alpha_ (ci : option string) (alpha : float)
    (s : StimulusController) : StimulusController :=
  {| stim_config := stim_config s; current_trial := current_trial s;
     view := {| alpha_value := alpha; ci_image := ci |};
     timers := timers s; callbacks := callbacks s |}.

Definition schedule (t : Timer) (s : StimulusController) : StimulusController :=
  {| stim_config := stim_config s; current_trial := current_trial s;
     view := view s; timers := timers s ++ [t]; callbacks := callbacks s |}.

(** [ms / 1000.0] for an integer number of milliseconds. *)
Definition seconds (ms : Z) : option float :=
  match float_of_int ms with
  | Some d => Some (d / 1000)%float
  | None => None
  end.

Definition steps : Z := 30.

(** [(fade_duration_ms / 1000.0) / steps] *)
Definition fade_interval (cfg : StimulusConfig) : option float :=
  match seconds (fade_duration_ms cfg), float_of_int steps with
  | Some s, Some n => Some (s / n)%float
  | _, _ => None
  end.

(** The body shared by the closure [step] of [_run_next_trial] and by
    [_fadeStep_], once the interval is known. *)
Definition fade_step (interval : float) (idx : Z) (ci : string)
    (s : StimulusController) : StimulusController * outcome unit :=
  match int_truediv idx steps with
  | None => (s, Raised)
  | Some q =>
      let s1 := set_ciimage_alpha_ (Some ci) (min_one q) s in
      if idx <? steps then
        (schedule {| interval_s := interval; selector := FadeStep (idx + 1) ci |} s1,
         Returned ())
      else
        match seconds (hold_duration_ms (stim_config s)) with
        | None => (s1, Raised)
        | Some hold_s =>
            (schedule {| interval_s := hold_s; selector := HoldDone |} s1, Returned ())
        end
  end.

Definition _fadeStep_ (idx : Z) (ci : string) (s : StimulusController)
  : StimulusController * outcome unit :=
  match fade_interval (stim_config s) with
  | None => (s, Raised)
  | Some interval => fade_step interval idx ci s
  end.

Definition _holdDone_ (s : StimulusController) : StimulusController * outcome unit :=
  let s1 := set_ciimage_alpha_ None 0 s in
  match seconds (gap_duration_ms (stim_config s)) with
  | None => (s1, Raised)
  | Some gap_s => (schedule {| interval_s := gap_s; selector := GapDone |} s1, Returned ())
  end.

(** The payload of trial [n]: [f"{payload_base}-trial-{n}"]. *)
Definition trial_payload (cfg : StimulusConfig) (n : Z) : string :=
  payload_base cfg +:+ "-trial-" +:+ pretty n.

(** [clock n] is the value [time.perf_counter_ns()] returns when trial
    [n] starts; the callback is taken to return. *)
Definition _run_next_trial (clock : Z → Z) (s : StimulusController)
  : StimulusController * outcome unit :=
  if stim_trials (stim_config s) <=? current_trial s then
    (set_ciimage_alpha_ None 0 s, Returned ())
  else
    let n := current_trial s + 1 in
    let payload := trial_payload (stim_config s) n in
    let s1 :=
      {| stim_config := stim_config s; current_trial := n; view := view s;
         timers := timers s;
         callbacks := callbacks s ++ [ {| ev_trial_id := n; ev_t0_ns := clock n;
                                         ev_payload := payload |} ] |} in
    match fade_interval (stim_config s) with
    | None => (s1, Raised)
    | Some interval => fade_step interval 0 payload s1
    end.

Definition _gapDone_ (clock : Z → Z) (s : StimulusController)
  : StimulusController * outcome unit :=
  _run_next_trial clock s.

Definition run_fade_trials (clock : Z → Z) (s : StimulusController)
  : StimulusController * outcome unit :=
  _run_next_trial clock
    {| stim_config := stim_config s; current_trial := 0; view := view s;
       timers := timers s; callbacks := callbacks s |}.

(** The run loop fires a pending timer: the first of the list.  The
    script never has more than one timer pending. *)
Definition fire (clock : Z → Z) (s : StimulusController)
  : StimulusController * outcome unit :=
  match timers s with
  | [] => (s, Returned ())
  | t :: rest =>
      let s' := {| stim_config := stim_config s; current_trial := current_trial s;
                   view := view s; timers := rest; callbacks := callbacks s |} in
      match selector t with
      | FadeStep idx ci => _fadeStep_ idx ci s'
      | HoldDone => _holdDone_ s'
      | GapDone => _gapDone_ clock s'
      end
  end.

Fixpoint fires (clock : Z → Z) (n : nat) (s : StimulusController) : StimulusController :=
  match n with
  | O => s
  | S n' => fires clock n' (fire clock s).1
  end.

(** The events of [k] trials in a row, the first one numbered [first]. *)
Fixpoint trial_events (clock : Z → Z) (cfg : StimulusConfig) (first : Z) (k : nat)
  : list StimulusEvent :=
  match k with
  | O => []
  | S k' =>
      {| ev_trial_id := first; ev_t0_ns := clock first;
         ev_payload := trial_payload cfg first |}
      :: trial_events clock cfg (first + 1) k'
  end.

End Stimulus.

(** ** stats.py, the success rate *)

Module StatsRate.

(** [success_rate]: [successes / total] unless [total] is zero. *)
Definition success_rate (successes total : Z) : option float :=
  if total =? 0 then Some 0%float else Stimulus.int_truediv successes total.

(** What is computed of the rate of [successes] out of [total]: it is a
    float between 0.0 and 1.0, 1.0 only for [successes = total] and 0.0
    only for [successes = 0]. *)
Definition rate_ok (successes total : Z) : bool :=
  match success_rate successes total with
  | Some r =>
      (0 <=? r)%float && (r <=? 1)%float
      && bool_decide ((r =? 1)%float = true ↔ successes = total)
      && bool_decide ((r =? 0)%float = true ↔ successes = 0)
  | None => false
  end.

Definition rates_upto (total : Z) : bool :=
  forallb (λ t, forallb (λ s, rate_ok s t) (seqZ 0 (t + 1))) (seqZ 1 total).

End StatsRate.

(** ** Statistics *)

Section OrderStatistics.
Import StatsChecks.

Lemma SFleb_key f1 f2 :
  f1 ≠ S754_nan → f2 ≠ S754_nan → SFleb f1 f2 = true ↔ key_le (key f1) (key f2).
Proof.
  intros H1 H2. unfold SFleb, key_le.
  destruct f1 as [s1|s1| |s1 m1 e1], f2 as [s2|s2| |s2 m2 e2]; try done;
    try (destruct s1; simpl; split; (done || lia));
    try (destruct s2; simpl; split; (done || lia));
    try (destruct s1, s2; simpl; split; (done || lia)).
  destruct s1, s2; simpl; try (split; (done || lia)).
  - destruct (Z.compare_spec e1 e2) as [->|?|?]; simpl;
      [|split; (done || lia)..].
    change (Pos.compare_cont Eq m1 m2) with (Pos.compare m1 m2).
    destruct (Pos.compare_spec m1 m2) as [->|?|?]; simpl; split; (done || lia).
  - destruct (Z.compare_spec e1 e2) as [->|?|?]; simpl;
      [|split; (done || lia)..].
    change (Pos.compare_cont Eq m1 m2) with (Pos.compare m1 m2).
    destruct (Pos.compare_spec m1 m2) as [->|?|?]; simpl; split; (done || lia).
Qed.

Lemma SFltb_key f1 f2 :
  f1 ≠ S754_nan → f2 ≠ S754_nan → SFltb f1 f2 = true ↔ key_lt (key f1) (key f2).
Proof.
  intros H1 H2. unfold SFltb, key_lt.
  destruct f1 as [s1|s1| |s1 m1 e1], f2 as [s2|s2| |s2 m2 e2]; try done;
    try (destruct s1; simpl; split; (done || lia));
    try (destruct s2; simpl; split; (done || lia));
    try (destruct s1, s2; simpl; split; (done || lia)).
  destruct s1, s2; simpl; try (split; (done || lia)).
  - destruct (Z.compare_spec e1 e2) as [->|?|?]; simpl;
      [|split; (done || lia)..].
    change (Pos.compare_cont Eq m1 m2) with (Pos.compare m1 m2).
    destruct (Pos.compare_spec m1 m2) as [->|?|?]; simpl; split; (done || lia).
  - destruct (Z.compare_spec e1 e2) as [->|?|?]; simpl;
      [|split; (done || lia)..].
    change (Pos.compare_cont Eq m1 m2) with (Pos.compare m1 m2).
    destruct (Pos.compare_spec m1 m2) as [->|?|?]; simpl; split; (done || lia).
Qed.

Lemma is_nan_Prim2SF x : is_nan x = false ↔ Prim2SF x ≠ S754_nan.
Proof.
  unfold is_nan. rewrite FloatAxioms.eqb_spec. unfold SFeqb.
  destruct (Prim2SF x) as [s|s| |s m e]; simpl.
  - done.
  - by destruct s.
  - split; [done|]. by intros [].
  - destruct s; rewrite Z.compare_refl;
      change (Pos.compare_cont Eq m m) with (Pos.compare m m);
      rewrite Pos.compare_refl; done.
Qed.

(** On floats that are not NaN, [<=] is total and transitive. *)
Lemma float_leb_total x y :
  is_nan x = false → is_nan y = false → (x <? y)%float = false → (y <=? x)%float = true.
Proof.
  rewrite !is_nan_Prim2SF, ltb_spec, leb_spec. intros Hx Hy Hlt.
  apply SFleb_key; [done..|].
  assert (Hn : ¬ key_lt (key (Prim2SF x)) (key (Prim2SF y))).
  { intros H. apply SFltb_key in H; [congruence|done..]. }
  unfold key_le, key_lt in *. lia.
Qed.

Lemma float_ltb_leb x y :
  is_nan x = false → is_nan y = false → (x <? y)%float = true → (x <=? y)%float = true.
Proof.
  rewrite !is_nan_Prim2SF, ltb_spec, leb_spec. intros Hx Hy Hlt.
  apply SFleb_key; [done..|]. apply SFltb_key in Hlt; [|done..].
  unfold key_le, key_lt in *. lia.
Qed.

Lemma float_leb_trans x y z :
  is_nan x = false → is_nan y = false → is_nan z = false →
  (x <=? y)%float = true → (y <=? z)%float = true → (x <=? z)%float = true.
Proof.
  rewrite !is_nan_Prim2SF, !leb_spec. intros Hx Hy Hz H1 H2.
  apply SFleb_key in H1, H2; [|done..]. apply SFleb_key; [done..|].
  unfold key_le in *. lia.
Qed.

Lemma insert_sorted_perm x l : Stats.insert_sorted x l ≡ₚ x :: l.
Proof.
  induction l as [|y l IH]; simpl; [done|].
  destruct (x <? y)%float; [done|].
  rewrite IH. apply Permutation_swap.
Qed.

Lemma insert_sorted_ascending x l :
  is_nan x = false → nan_free l → ascending l → ascending (Stats.insert_sorted x l).
Proof.
  intros Hx Hl Hs. induction Hs as [|y l Hs IH Hy]; simpl.
  { repeat constructor. }
  apply Forall_cons in Hl as [Hny Hl].
  destruct (x <? y)%float eqn:Hlt.
  - constructor; [by constructor|].
    assert (Hxy : (x <=? y)%float = true) by by apply float_ltb_leb.
    constructor; [done|].
    rewrite Forall_forall in Hy, Hl. apply Forall_forall. intros z Hz.
    apply (float_leb_trans x y z); auto.
  - constructor; [by apply IH|].
    rewrite (insert_sorted_perm x l). constructor; [|done].
    by apply float_leb_total.
Qed.

Lemma insert_all_spec values acc :
  nan_free values → nan_free acc → ascending acc →
  let s := foldl (λ a x, Stats.insert_sorted x a) acc values in
  s ≡ₚ acc ++ values ∧ ascending s ∧ nan_free s.
Proof.
  intros Hv. revert acc. induction Hv as [|x values Hx _ IH]; intros acc Ha Hs; simpl.
  { by rewrite app_nil_r. }
  destruct (IH (Stats.insert_sorted x acc)) as (Hp & Hs' & Hn).
  - unfold nan_free. rewrite (insert_sorted_perm x acc). by constructor.
  - by apply insert_sorted_ascending.
  - split; [|done]. rewrite Hp, insert_sorted_perm. by rewrite <- Permutation_middle.
Qed.

Lemma existsb_is_nan values : nan_free values → existsb is_nan values = false.
Proof.
  induction 1 as [|x values Hx _ IH]; simpl; [done|]. by rewrite Hx, IH.
Qed.

(** On values without NaN, [sorted] returns their order statistics: the
    same values, in ascending order. *)
Lemma sorted_spec values :
  nan_free values → ∃ s, Stats.sorted values = Some s ∧ s ≡ₚ values ∧ ascending s.
Proof.
  intros Hv. unfold Stats.sorted. rewrite existsb_is_nan by done.
  destruct (insert_all_spec values [] Hv) as (Hp & Hs & _); [constructor..|].
  eexists. split; [done|]. split; [exact Hp|exact Hs].
Qed.

Lemma py_index_lookup {A} (l : list A) i :
  0 ≤ i → py_index l i = l !! Z.to_nat i.
Proof. intros Hi. unfold py_index. by destruct (Z.leb_spec 0 i); [|lia]. Qed.

Lemma ceil_div_ge v d : 0 < d → v / d ≤ - (- v / d).
Proof.
  intros Hd.
  pose proof (Z.div_mod v d) as H1. pose proof (Z.mod_pos_bound v d Hd) as H2.
  pose proof (Z.div_mod (- v) d) as H3. pose proof (Z.mod_pos_bound (- v) d Hd) as H4.
  nia.
Qed.

Lemma quot_exact v d : 0 < d → v / d = - (- v / d) → Z.quot v d = v / d.
Proof.
  intros Hd Heq.
  assert (Hm : v mod d = 0).
  { pose proof (Z.div_mod v d) as H1. pose proof (Z.mod_pos_bound v d Hd) as H2.
    pose proof (Z.div_mod (- v) d) as H3. pose proof (Z.mod_pos_bound (- v) d Hd) as H4.
    nia. }
  apply Z.mod_divide in Hm; [|lia]. destruct Hm as [k ->].
  rewrite Z.quot_mul, Z.div_mul; lia.
Qed.

(** The floor of a float is not above its ceiling, and where the two
    coincide [int] gives the same integer. *)
Lemma floor_ceil rank low high :
  math_floor rank = Some low → math_ceil rank = Some high →
  low ≤ high ∧ (low = high → int_of_float rank = Some low).
Proof.
  unfold math_floor, math_ceil, int_of_float.
  destruct (Prim2SF rank) as [s|s| |s m e]; try done.
  { by intros [= <-] [= <-]. }
  intros [= <-] [= <-].
  destruct (Z.leb_spec 0 e) as [|He]; [done|].
  assert (Hd : 0 < 2 ^ (- e)) by (apply Z.pow_pos_nonneg; lia).
  split; [by apply ceil_div_ge|].
  intros Heq. f_equal. by apply quot_exact.
Qed.

Lemma nan_free_perm s values : s ≡ₚ values → nan_free values → nan_free s.
Proof. unfold nan_free. by intros ->. Qed.

(** The value [_percentile] returns when the rank has floor [low] and
    ceiling [high], both positions of the values. *)
Lemma percentile_at values p n1 low high :
  nan_free values → (2 ≤ length values)%nat →
  float_of_int (Z.of_nat (length values) - 1) = Some n1 →
  math_floor (n1 * p)%float = Some low →
  math_ceil (n1 * p)%float = Some high →
  0 ≤ low → high < Z.of_nat (length values) →
  ∃ s a b,
    s ≡ₚ values ∧ ascending s
    ∧ s !! Z.to_nat low = Some a ∧ s !! Z.to_nat high = Some b
    ∧ low ≤ high
    ∧ Stats._percentile values p =
        Some (if decide (low = high) then Returned (Some a)
              else match float_of_int low with
                   | Some flow =>
                       Returned (Some (a * (1 - (n1 * p - flow))
                                       + b * (n1 * p - flow))%float)
                   | None => Raised
                   end).
Proof.
  intros Hv Hlen Hn1 Hlow Hhigh H0 Hn.
  destruct (sorted_spec values Hv) as (s & Hs & Hp & Hasc).
  destruct (floor_ceil _ _ _ Hlow Hhigh) as [Hle Hint].
  assert (Hls : length s = length values) by by apply Permutation_length.
  destruct (lookup_lt_is_Some_2 s (Z.to_nat low)) as [a Ha]; [lia|].
  destruct (lookup_lt_is_Some_2 s (Z.to_nat high)) as [b Hb]; [lia|].
  exists s, a, b. do 5 (split; [done|]).
  destruct values as [|v1 [|v2 values]]; simpl in Hlen; [lia..|].
  unfold Stats._percentile. rewrite Hs. f_equal.
  unfold Stats.at_rank. rewrite Hls, Hn1. cbv zeta. rewrite Hlow, Hhigh.
  destruct (Z.eqb_spec low high) as [Heq|Hne].
  - rewrite decide_True by done. rewrite (Hint Heq).
    by rewrite py_index_lookup, Ha.
  - rewrite decide_False by done. unfold Stats.interpolate.
    destruct (float_of_int low) as [flow|]; [|done].
    by rewrite !py_index_lookup, Ha, Hb by lia.
Qed.

Lemma rank_table : forallb rank_exact (seqZ 1 10000) = true.
Proof. vm_compute. reflexivity. Qed.

Lemma rank_exact_upto n : 1 ≤ n ≤ 10000 → rank_exact n = true.
Proof.
  intros Hn. pose proof rank_table as Htab.
  rewrite forallb_forall in Htab. apply Htab.
  apply list_elem_of_In, elem_of_seqZ. lia.
Qed.

(** C7: on values without NaN, [_percentile] interpolates linearly
    between two order statistics.  With [s] the values in ascending
    order and the rank [(count - 1) * p] having floor [low] and ceiling
    [high], both positions of [s], it returns [s[low]] when the two
    coincide and [s[low] * (1 - frac) + s[high] * frac] with
    [frac = rank - low] otherwise.  For the 95th percentile of 1 to 10000
    values this always applies: [low] and [high] are the floor and the
    ceiling of the exact rank [(count - 1) * 95 / 100], at most one
    apart, and the call returns.  The 95th percentile of
    [10, 20, 30, 40], in this or in another order, is exactly 38.5. *)
Theorem percentile_interpolates :
  (∀ (values : list float) (p n1 : float) (low high : Z),
      nan_free values → (2 ≤ length values)%nat →
      float_of_int (Z.of_nat (length values) - 1) = Some n1 →
      math_floor (n1 * p)%float = Some low →
      math_ceil (n1 * p)%float = Some high →
      0 ≤ low → high < Z.of_nat (length values) →
      ∃ s a b,
        s ≡ₚ values ∧ ascending s
        ∧ s !! Z.to_nat low = Some a ∧ s !! Z.to_nat high = Some b
        ∧ low ≤ high
        ∧ Stats._percentile values p =
            Some (if decide (low = high) then Returned (Some a)
                  else match float_of_int low with
                       | Some flow =>
                           Returned (Some (a * (1 - (n1 * p - flow))
                                           + b * (n1 * p - flow))%float)
                       | None => Raised
                       end))
  ∧ (∀ (values : list float),
      nan_free values → 1 ≤ Z.of_nat (length values) ≤ 10000 →
      let n := Z.of_nat (length values) in
      let low := exact_low n in
      let high := exact_high n in
      ∃ s n1 flow a b,
        s ≡ₚ values ∧ ascending s
        ∧ float_of_int (n - 1) = Some n1
        ∧ math_floor (n1 * 0.95)%float = Some low
        ∧ math_ceil (n1 * 0.95)%float = Some high
        ∧ float_of_int low = Some flow
        ∧ 0 ≤ low ∧ low ≤ high ∧ high ≤ low + 1 ∧ high < n
        ∧ s !! Z.to_nat low = Some a ∧ s !! Z.to_nat high = Some b
        ∧ Stats._percentile values 0.95%float =
            Some (Returned (Some (if decide (low = high) then a
                                  else (a * (1 - (n1 * 0.95 - flow))
                                        + b * (n1 * 0.95 - flow))%float))))
  ∧ Stats._percentile [10; 20; 30; 40]%float 0.95%float
    = Some (Returned (Some 38.5%float))
  ∧ Stats._percentile [40; 10; 30; 20]%float 0.95%float
    = Some (Returned (Some 38.5%float)).
Proof.
  split; [exact percentile_at|]. split; [|split; vm_compute; reflexivity].
  intros values Hv Hlen n low high.
  pose proof (rank_exact_upto n Hlen) as Hok. unfold rank_exact in Hok.
  destruct (float_of_int (n - 1)) as [n1|] eqn:Hn1; [|done]. cbv zeta in Hok.
  destruct (math_floor (n1 * 0.95)) as [lo|] eqn:Hlo; [|done].
  destruct (math_ceil (n1 * 0.95)) as [hi|] eqn:Hhi; [|done].
  destruct (float_of_int lo) as [flow|] eqn:Hflow;
    [|by rewrite andb_false_r in Hok].
  rewrite andb_true_r in Hok.
  apply andb_prop in Hok as [Hok H4]. apply andb_prop in Hok as [Hok H3].
  apply andb_prop in Hok as [H1 H2].
  apply Z.eqb_eq in H1, H2. apply Z.leb_le in H3. apply Z.ltb_lt in H4.
  fold low in H1. fold high in H2. subst lo hi.
  assert (Hone : high ≤ low + 1).
  { subst low high. unfold exact_low, exact_high.
    pose proof (Z.div_mod (19 * (n - 1)) 20) as E1.
    pose proof (Z.mod_pos_bound (19 * (n - 1)) 20) as E2.
    pose proof (Z.div_mod (- (19 * (n - 1))) 20) as E3.
    pose proof (Z.mod_pos_bound (- (19 * (n - 1))) 20) as E4. lia. }
  destruct (decide (n = 1)) as [Hn|Hn].
  - destruct values as [|v [|v' values]]; subst n; simpl length in *; [lia| |lia].
    exists [v], n1, flow, v, v.
    change (exact_low (Z.of_nat 1)) with 0 in *.
    change (exact_high (Z.of_nat 1)) with 0 in *.
    subst low high. repeat split; first [done | lia | repeat constructor].
  - destruct (percentile_at values 0.95%float n1 low high)
      as (s & a & b & Hp & Hs & Ha & Hb & Hle & Hres); [done|lia|done..|].
    exists s, n1, flow, a, b. rewrite Hflow in Hres.
    do 11 (split; [done || lia|]).
    rewrite Hres. by destruct (decide (low = high)).
Qed.

Lemma percentile_interpolates_witness :
  ∃ s a b,
    s ≡ₚ [40; 10; 30; 20]%float ∧ ascending s
    ∧ s !! Z.to_nat 2 = Some a ∧ s !! Z.to_nat 3 = Some b
    ∧ 2 ≤ 3
    ∧ Stats._percentile [40; 10; 30; 20]%float 0.95%float =
        Some (if decide (2 = 3) then Returned (Some a)
              else match float_of_int 2 with
                   | Some flow =>
                       Returned (Some (a * (1 - (3 * 0.95 - flow))
                                       + b * (3 * 0.95 - flow))%float)
                   | None => Raised
                   end).
Proof.
  destruct percentile_interpolates as (H1 & _).
  apply (H1 [40; 10; 30; 20]%float 0.95%float 3%float 2 3);
    try (vm_compute; reflexivity); try lia.
  - repeat constructor.
  - simpl. lia.
Defined.

End OrderStatistics.

(** ** The trial engine *)

Section TrialEngine.
Import Live LiveTraces.

Lemma accepting_inv c ts tid trial :
  accepting c ts = Some (tid, trial) →
  _active_trial_id c = Some tid ∧ _trials c !! tid = Some trial
  ∧ t0_ns trial ≤ ts ≤ timeout_ns trial.
Proof.
  unfold accepting. destruct (_active_trial_id c) as [a|]; simpl; [|done].
  destruct (_trials c !! a) as [t|] eqn:Ht; simpl; [|done].
  destruct (Z.ltb_spec ts (t0_ns t)), (Z.ltb_spec (timeout_ns t) ts);
    simpl; try done.
  intros [= <- <-]. repeat split; (done || lia).
Qed.

Lemma accepting_intro c ts tid trial :
  _active_trial_id c = Some tid → _trials c !! tid = Some trial →
  t0_ns trial ≤ ts ≤ timeout_ns trial →
  accepting c ts = Some (tid, trial).
Proof.
  intros Ha Ht [H1 H2]. unfold accepting. rewrite Ha. simpl. rewrite Ht. simpl.
  destruct (Z.ltb_spec ts (t0_ns trial)), (Z.ltb_spec (timeout_ns trial) ts);
    simpl; (done || lia).
Qed.

Lemma on_detection_rejected dec ts payload c :
  accepting c ts = None → on_detection dec ts payload c = (c, Returned ()).
Proof.
  unfold accepting, on_detection.
  destruct (_active_trial_id c) as [a|]; simpl; [|done].
  destruct (_trials c !! a) as [t|]; simpl; [|done].
  by destruct (_ || _).
Qed.

Lemma on_detection_accepted dec ts payload c tid trial :
  accepting c ts = Some (tid, trial) →
  let state' :=
    (detect (config c) dec ts payload (default fresh_state (per_decoder trial !! dec))).1 in
  let c' := (on_detection dec ts payload c).1 in
  _trials c' = <[tid := set_decoder_state dec state' trial]> (_trials c)
  ∧ _active_trial_id c' = _active_trial_id c
  ∧ config c' = config c.
Proof.
  intros Hacc. destruct (accepting_inv _ _ _ _ Hacc) as (Ha & Ht & H1 & H2).
  unfold on_detection. rewrite Ha, Ht.
  destruct (Z.ltb_spec ts (t0_ns trial)), (Z.ltb_spec (timeout_ns trial) ts);
    simpl; try lia.
  destruct (detect _ _ _ _ _) as [st' [[]|]]; simpl; by rewrite ?Ha.
Qed.

(** What a call to [on_detection] does to the state of any pair. *)
Lemma pair_state_on_detection dec ts payload c tid' dec' :
  pair_state (on_detection dec ts payload c).1 tid' dec' =
    match accepting c ts with
    | Some (tid, trial) =>
        if bool_decide (tid' = tid ∧ dec' = dec)
        then Some (detect (config c) dec ts payload
                     (default fresh_state (per_decoder trial !! dec))).1
        else pair_state c tid' dec'
    | None => pair_state c tid' dec'
    end.
Proof.
  destruct (accepting c ts) as [[tid trial]|] eqn:Hacc;
    [|by rewrite on_detection_rejected].
  destruct (on_detection_accepted dec _ payload _ _ _ Hacc) as (Ht & _ & _).
  destruct (accepting_inv _ _ _ _ Hacc) as (_ & Hl & _).
  unfold pair_state. rewrite Ht.
  case_bool_decide as Hd.
  - destruct Hd as [-> ->]. rewrite lookup_insert_eq. simpl.
    by rewrite lookup_insert_eq.
  - destruct (decide (tid' = tid)) as [->|Hne].
    + rewrite lookup_insert_eq, Hl. simpl.
      rewrite lookup_insert_ne; [done|]. intros ->. by apply Hd.
    + by rewrite lookup_insert_ne.
Qed.

Lemma config_step call c : config (step call c) = config c.
Proof.
  destruct call as [tid t0|now tid|dec ts payload]; simpl.
  - unfold start_trial. by destruct (int_of_float _).
  - done.
  - destruct (accepting c ts) as [[tid trial]|] eqn:Hacc.
    + by destruct (on_detection_accepted dec _ payload _ _ _ Hacc) as (_ & _ & ?).
    + by rewrite on_detection_rejected.
Qed.

Lemma config_run calls c : config (run calls c) = config c.
Proof.
  revert c. induction calls as [|call calls IH]; intros c; [done|].
  unfold run in *. simpl. by rewrite IH, config_step.
Qed.

Lemma first_detect_detect cfg dec ts payload st :
  first_detect_ns (detect cfg dec ts payload st).1 =
    Some (default ts (first_detect_ns st)).
Proof.
  unfold detect. destruct (int_of_float _); simpl; by destruct (first_detect_ns st).
Qed.

Lemma confirm_detect_latched cfg dec ts payload st k :
  confirm_detect_ns st = Some k →
  confirm_detect_ns (detect cfg dec ts payload st).1 = Some k.
Proof.
  intros Hk. unfold detect. destruct (int_of_float _); simpl; [|done].
  unfold confirm. simpl. by rewrite Hk.
Qed.

(** C1: [on_detection] changes nothing (trial map, active trial and
    log alike) when no trial is active and when the timestamp is before
    [t0] or after the timeout of the active trial; a timestamp equal to
    the timeout of an active trial is taken, and stamps the pair's first
    detection; a timestamp one nanosecond later changes nothing. *)
Theorem on_detection_closed_interval :
  (∀ dec ts payload c,
      _active_trial_id c = None →
      on_detection dec ts payload c = (c, Returned ()))
  ∧ (∀ dec ts payload c tid trial,
      _active_trial_id c = Some tid → _trials c !! tid = Some trial →
      ts < t0_ns trial ∨ timeout_ns trial < ts →
      on_detection dec ts payload c = (c, Returned ()))
  ∧ (∀ dec payload c tid trial,
      _active_trial_id c = Some tid → _trials c !! tid = Some trial →
      t0_ns trial ≤ timeout_ns trial →
      ∃ state,
        pair_state (on_detection dec (timeout_ns trial) payload c).1 tid dec = Some state
        ∧ state = (detect (config c) dec (timeout_ns trial) payload
                     (default fresh_state (per_decoder trial !! dec))).1
        ∧ is_Some (first_detect_ns state))
  ∧ (∀ dec payload c tid trial,
      _active_trial_id c = Some tid → _trials c !! tid = Some trial →
      on_detection dec (timeout_ns trial + 1) payload c = (c, Returned ())).
Proof.
  split; [|split; [|split]].
  - intros dec ts payload c Ha. apply on_detection_rejected.
    unfold accepting. by rewrite Ha.
  - intros dec ts payload c tid trial Ha Ht Hout. apply on_detection_rejected.
    unfold accepting. rewrite Ha. simpl. rewrite Ht. simpl.
    destruct (Z.ltb_spec ts (t0_ns trial)), (Z.ltb_spec (timeout_ns trial) ts);
      simpl; (done || lia).
  - intros dec payload c tid trial Ha Ht Hle.
    eexists. rewrite pair_state_on_detection.
    rewrite (accepting_intro c _ tid trial) by (done || lia).
    rewrite bool_decide_eq_true_2 by done.
    split; [done|]. split; [done|].
    rewrite first_detect_detect. by eexists.
  - intros dec payload c tid trial Ha Ht. apply on_detection_rejected.
    unfold accepting. rewrite Ha. simpl. rewrite Ht. simpl.
    destruct (Z.ltb_spec (timeout_ns trial + 1) (t0_ns trial)),
      (Z.ltb_spec (timeout_ns trial) (timeout_ns trial + 1)); simpl; (done || lia).
Qed.

Lemma on_detection_closed_interval_witness :
  on_detection "VISION" 5 "QR" idle = (idle, Returned ())
  ∧ on_detection "VISION" (-1) "QR" trial1 = (trial1, Returned ())
  ∧ (∃ state,
        pair_state (on_detection "VISION" 3000000000 "QR" trial1).1 1 "VISION" = Some state
        ∧ state = (detect default_config "VISION" 3000000000 "QR" fresh_state).1
        ∧ is_Some (first_detect_ns state))
  ∧ on_detection "VISION" 3000000001 "QR" trial1 = (trial1, Returned ()).
Proof.
  destruct on_detection_closed_interval as (H1 & H2 & H3 & H4).
  split; [|split; [|split]].
  - apply H1. reflexivity.
  - apply (H2 "VISION" (-1) "QR" trial1 1 record1); [reflexivity|reflexivity|].
    left. vm_compute. reflexivity.
  - apply (H3 "VISION" "QR" trial1 1 record1); [reflexivity|reflexivity|].
    vm_compute. intros; discriminate.
  - apply (H4 "VISION" "QR" trial1 1 record1); reflexivity.
Defined.

(** C9: [end_trial] appends one TRIAL_END event and leaves the trial
    map, every per-decoder state in it, the active trial and the
    configuration as they were; of the calls a controller receives, only
    [start_trial] changes the active trial, and it makes its own trial
    the active one. *)
Theorem end_trial_only_logs :
  (∀ now tid c,
      let c' := (end_trial now tid c).1 in
      _trials c' = _trials c
      ∧ _active_trial_id c' = _active_trial_id c
      ∧ config c' = config c
      ∧ logger c' = log now "live" (Some tid) "SYSTEM" "TRIAL_END" None None (logger c)
      ∧ (end_trial now tid c).2 = Returned ())
  ∧ (∀ call c,
      _active_trial_id (step call c) ≠ _active_trial_id c →
      ∃ tid t0, call = StartTrial tid t0 ∧ _active_trial_id (step call c) = Some tid).
Proof.
  split; [done|].
  intros [tid t0|now tid|dec ts payload] c; simpl.
  - unfold start_trial. destruct (int_of_float _); simpl; [|done].
    intros _. by exists tid, t0.
  - done.
  - destruct (accepting c ts) as [[tid trial]|] eqn:Hacc.
    + by destruct (on_detection_accepted dec _ payload _ _ _ Hacc) as (_ & -> & _).
    + by rewrite on_detection_rejected.
Qed.

Lemma end_trial_only_logs_witness :
  ∃ tid t0, StartTrial 1 0 = StartTrial tid t0
            ∧ _active_trial_id (step (StartTrial 1 0) idle) = Some tid.
Proof.
  apply (proj2 end_trial_only_logs (StartTrial 1 0) idle).
  vm_compute. intros; discriminate.
Defined.

Lemma pair_state_lookup c tid trial dec :
  _trials c !! tid = Some trial → pair_state c tid dec = per_decoder trial !! dec.
Proof. intros Ht. unfold pair_state. by rewrite Ht. Qed.

Lemma pair_state_start_trial tid t0 c tid' dec :
  pair_state (start_trial tid t0 c).1 tid' dec =
    match (start_trial tid t0 c).2 with
    | Returned _ => if bool_decide (tid' = tid) then None else pair_state c tid' dec
    | Raised => pair_state c tid' dec
    end.
Proof.
  unfold start_trial. destruct (int_of_float _); simpl; [|done].
  unfold pair_state. simpl. case_bool_decide as Hd.
  - subst. by rewrite lookup_insert_eq.
  - by rewrite lookup_insert_ne.
Qed.

Lemma evict_single w ts payload :
  evict w ts [(payload, ts)] = if w <? 0 then [] else [(payload, ts)].
Proof. simpl. by rewrite Z.sub_diag. Qed.

Lemma count_payload_single w ts payload :
  count_payload payload (evict w ts [(payload, ts)]) ≤ 1.
Proof.
  rewrite evict_single. destruct (w <? 0); [done|].
  unfold count_payload.
  pose proof (length_filter (λ e : string * Z, e.1 = payload) [(payload, ts)]) as H.
  simpl in H. lia.
Qed.

Lemma detect_passive_fresh cfg w ts payload :
  1 < confirmations_required cfg →
  int_of_float (confirmation_window_ms cfg * 1e6)%float = Some w →
  let st := (detect cfg "AVFOUNDATION" ts payload fresh_state).1 in
  first_detect_ns st = Some ts ∧ confirm_detect_ns st = Some ts.
Proof.
  intros Hreq Hw. unfold detect. rewrite Hw. simpl. split; [done|].
  unfold confirm. simpl.
  pose proof (count_payload_single w ts payload) as Hc.
  rewrite evict_single in Hc. rewrite Z.sub_diag.
  destruct (Z.ltb_spec 1 (confirmations_required cfg)); [|lia].
  destruct (Z.ltb_spec (count_payload payload (if w <? 0 then [] else [(payload, ts)]))
              (confirmations_required cfg)); [done|lia].
Qed.

Lemma detect_passive_latched cfg dec ts payload st :
  passive_latched st → passive_latched (detect cfg dec ts payload st).1.
Proof.
  intros [Heq [f Hf]]. unfold passive_latched.
  rewrite first_detect_detect, Hf. simpl. split; [|by eexists].
  apply confirm_detect_latched. by rewrite Heq.
Qed.

Lemma passive_latched_step cfg w call c :
  1 < confirmations_required cfg →
  int_of_float (confirmation_window_ms cfg * 1e6)%float = Some w →
  config c = cfg →
  (∀ tid st, pair_state c tid "AVFOUNDATION" = Some st → passive_latched st) →
  ∀ tid st, pair_state (step call c) tid "AVFOUNDATION" = Some st → passive_latched st.
Proof.
  intros Hreq Hw Hcfg Hinv tid st.
  destruct call as [tid0 t0|now tid0|dec ts payload]; simpl.
  - rewrite pair_state_start_trial.
    destruct (start_trial tid0 t0 c).2; [|by apply Hinv].
    case_bool_decide; [done|by apply Hinv].
  - by apply Hinv.
  - rewrite pair_state_on_detection.
    destruct (accepting c ts) as [[tid1 trial]|] eqn:Hacc; [|by apply Hinv].
    case_bool_decide as Hd; [|by apply Hinv].
    destruct Hd as [-> <-]. intros [= <-].
    destruct (accepting_inv _ _ _ _ Hacc) as (_ & Hl & _).
    destruct (per_decoder trial !! "AVFOUNDATION") as [old|] eqn:Hold; simpl.
    + apply detect_passive_latched, (Hinv tid1).
      by rewrite (pair_state_lookup _ _ _ _ Hl).
    + rewrite Hcfg.
      destruct (detect_passive_fresh cfg w ts payload Hreq Hw) as [Hf Hc].
      split; [by rewrite Hf, Hc|by rewrite Hf].
Qed.

(** C10: with [confirmations_required > 1] (and a confirmation window
    that converts to nanoseconds), the first detection of the
    AVFOUNDATION decoder a trial accepts sets both its first and its
    confirmed timestamp to that detection's timestamp; and after any
    sequence of calls on a new controller, in every trial where the
    AVFOUNDATION decoder has a state, its confirmed timestamp is set and
    equals its first timestamp, whatever was detected afterwards. *)
Theorem passive_confirms_at_first cfg w :
  1 < confirmations_required cfg →
  int_of_float (confirmation_window_ms cfg * 1e6)%float = Some w →
  (∀ c ts payload tid trial,
      config c = cfg →
      accepting c ts = Some (tid, trial) →
      per_decoder trial !! "AVFOUNDATION" = None →
      ∃ st,
        pair_state (on_detection "AVFOUNDATION" ts payload c).1 tid "AVFOUNDATION" = Some st
        ∧ first_detect_ns st = Some ts ∧ confirm_detect_ns st = Some ts)
  ∧ (∀ events calls tid st,
      pair_state (run calls (new_controller events cfg)) tid "AVFOUNDATION" = Some st →
      confirm_detect_ns st = first_detect_ns st ∧ is_Some (first_detect_ns st)).
Proof.
  intros Hreq Hw. split.
  - intros c ts payload tid trial Hcfg Hacc Hnone.
    eexists. rewrite pair_state_on_detection, Hacc.
    rewrite bool_decide_eq_true_2 by done.
    split; [done|]. rewrite Hnone, Hcfg. simpl.
    by apply (detect_passive_fresh cfg w).
  - intros events calls.
    enough (H : ∀ c, config c = cfg →
              (∀ tid st, pair_state c tid "AVFOUNDATION" = Some st → passive_latched st) →
              ∀ tid st, pair_state (run calls c) tid "AVFOUNDATION" = Some st →
                        passive_latched st).
    { intros tid st Hst. by apply (H (new_controller events cfg) eq_refl) in Hst. }
    induction calls as [|call calls IH]; intros c Hcfg Hinv; [done|].
    unfold run in *. simpl. apply IH.
    + by rewrite config_step.
    + by apply (passive_latched_step cfg w).
Qed.

Lemma passive_confirms_at_first_witness :
  (∃ st,
      pair_state (on_detection "AVFOUNDATION" 7 "QR" trial1).1 1 "AVFOUNDATION" = Some st
      ∧ first_detect_ns st = Some 7 ∧ confirm_detect_ns st = Some 7)
  ∧ (∀ st,
      pair_state
        (run [StartTrial 1 0; OnDetection "AVFOUNDATION" 7 "QR";
              OnDetection "AVFOUNDATION" 9 "QR"; OnDetection "AVFOUNDATION" 11 "QR"]
           (new_controller [] default_config)) 1 "AVFOUNDATION" = Some st →
      confirm_detect_ns st = first_detect_ns st ∧ is_Some (first_detect_ns st)).
Proof.
  assert (Hreq : 1 < confirmations_required default_config) by (vm_compute; reflexivity).
  assert (Hw : int_of_float (confirmation_window_ms default_config * 1e6)%float
               = Some 500000000) by (vm_compute; reflexivity).
  destruct (passive_confirms_at_first default_config 500000000 Hreq Hw) as [H1 H2].
  split.
  - apply (H1 trial1 7 "QR" 1 record1); reflexivity.
  - apply (H2 [] _ 1).
Defined.

(** *** Arrivals in timestamp order *)



Lemma evict_suffix w ts h : ∃ pre, h = pre ++ evict w ts h.
Proof.
  induction h as [|[p t] h [pre IH]]; simpl; [by exists []|].
  destruct (w <? ts - t).
  - exists ((p, t) :: pre). simpl. by rewrite <- IH.
  - by exists [].
Qed.


Lemma snoc_ordered hi ts payload h :
  hi ≤ ts → StronglySorted ts_le h → Forall (λ e, e.2 ≤ hi) h →
  StronglySorted ts_le (h ++ [(payload, ts)])
  ∧ Forall (λ e, e.2 ≤ ts) (h ++ [(payload, ts)]).
Proof.
  intros Hle Hs Hf. split.
  - apply StronglySorted_app_2; [|done|repeat constructor].
    intros a b Ha ->%list_elem_of_singleton. unfold ts_le. simpl.
    rewrite Forall_forall in Hf. specialize (Hf a Ha). simpl in Hf. lia.
  - apply Forall_app. split; [|by repeat constructor].
    eapply Forall_impl; [done|]. simpl. lia.
Qed.














(** *** The two confirmation policies *)

(** Without a [start_trial] among them, the calls act on each pair of
    the active trial through the detections it accepts for that pair. *)
Lemma run_pair_state calls c tid trial dec :
  Forall (λ call, is_start call = false) calls →
  _active_trial_id c = Some tid → _trials c !! tid = Some trial →
  pair_state (run calls c) tid dec =
    detect_all (config c) dec (accepted_for dec (t0_ns trial) (timeout_ns trial) calls)
      (per_decoder trial !! dec).
Proof.
  intros Hns. revert c trial.
  induction Hns as [|call calls Hcall _ IH]; intros c trial Ha Ht.
  { by apply pair_state_lookup. }
  unfold run in *.
  destruct call as [?|now tid0|d ts payload]; simpl in *;
    [done|exact (IH (end_trial now tid0 c).1 trial Ha Ht)|].
  destruct (Z.leb_spec (t0_ns trial) ts) as [H1|H1];
    [destruct (Z.leb_spec ts (timeout_ns trial)) as [H2|H2]|].
  - assert (Hacc : accepting c ts = Some (tid, trial)) by by apply accepting_intro.
    destruct (on_detection_accepted d _ payload _ _ _ Hacc) as (Ht' & Ha' & Hc').
    rewrite (IH _ (set_decoder_state d
                     (detect (config c) d ts payload
                        (default fresh_state (per_decoder trial !! d))).1 trial));
      [|congruence|by rewrite Ht', lookup_insert_eq].
    rewrite Hc'. simpl. case_bool_decide as Hd; simpl.
    + subst d. by rewrite lookup_insert_eq.
    + by rewrite lookup_insert_ne.
  - rewrite on_detection_rejected.
    + rewrite andb_false_r. by apply IH.
    + unfold accepting. rewrite Ha. simpl. rewrite Ht. simpl.
      destruct (Z.ltb_spec (timeout_ns trial) ts); [|lia]. by rewrite orb_true_r.
  - rewrite on_detection_rejected.
    + rewrite andb_false_r. by apply IH.
    + unfold accepting. rewrite Ha. simpl. rewrite Ht. simpl.
      destruct (Z.ltb_spec ts (t0_ns trial)); [done|lia].
Qed.

Lemma detect_all_latched cfg dec ds st k :
  confirm_detect_ns st = Some k →
  detect_all cfg dec ds (Some st) ≫= confirm_detect_ns = Some k.
Proof.
  revert st. induction ds as [|[ts payload] ds IH]; intros st Hk; [done|].
  unfold detect_all in *. simpl. apply IH. by apply confirm_detect_latched.
Qed.

(** One accepted detection of a frame-derived decoder that is not yet
    confirmed. *)
Lemma detect_threshold cfg dec w ts payload st :
  dec ≠ "AVFOUNDATION" →
  int_of_float (confirmation_window_ms cfg * 1e6)%float = Some w →
  confirm_detect_ns st = None →
  let st' := (detect cfg dec ts payload st).1 in
  history st' = evict w ts (history st ++ [(payload, ts)])
  ∧ confirm_detect_ns st' =
      if confirmations_required cfg <=? count_payload payload (history st')
      then Some ts else None.
Proof.
  intros Hdec Hw Hnone. unfold detect. rewrite Hw. simpl. split; [done|].
  unfold confirm. simpl. rewrite Hnone.
  by rewrite bool_decide_eq_false_2.
Qed.

Lemma detect_all_passive cfg w ds :
  1 < confirmations_required cfg →
  int_of_float (confirmation_window_ms cfg * 1e6)%float = Some w →
  ds ≠ [] →
  ∃ st, detect_all cfg "AVFOUNDATION" ds None = Some st ∧ passive_latched st.
Proof.
  intros Hreq Hw Hne. destruct ds as [|[ts payload] ds]; [done|].
  change (detect_all cfg "AVFOUNDATION" ((ts, payload) :: ds) None)
    with (detect_all cfg "AVFOUNDATION" ds
            (Some (detect cfg "AVFOUNDATION" ts payload fresh_state).1)).
  destruct (detect_passive_fresh cfg w ts payload Hreq Hw) as [Hf Hc].
  assert (Hl : passive_latched (detect cfg "AVFOUNDATION" ts payload fresh_state).1)
    by (split; [by rewrite Hf, Hc|by rewrite Hf]).
  clear Hf Hc Hne. revert Hl.
  generalize (detect cfg "AVFOUNDATION" ts payload fresh_state).1.
  induction ds as [|[ts' payload'] ds IH]; intros st Hl; [by exists st|].
  apply (IH (detect cfg "AVFOUNDATION" ts' payload' st).1).
  by apply detect_passive_latched.
Qed.

Lemma filter_all {A} (P : A → Prop) `{!∀ x, Decision (P x)} (l : list A) :
  Forall P l → filter P l = l.
Proof.
  induction 1 as [|x l Hx _ IH]; [done|].
  by rewrite filter_cons_True, IH.
Qed.

(** On a history in timestamp order the eviction loop leaves exactly
    the entries inside the window: after a detection at [ts], not before
    the latest timestamp [hi] seen, what was kept of the entries [X] for
    the window ending at [hi] becomes what the window ending at [ts]
    holds of [X] and the new entry. *)
Lemma evict_window w hi ts p X :
  StronglySorted ts_le X → Forall (λ e, e.2 ≤ hi) X → hi ≤ ts →
  evict w ts (filter (λ e, hi - e.2 ≤ w) X ++ [(p, ts)])
  = filter (λ e, ts - e.2 ≤ w) (X ++ [(p, ts)]).
Proof.
  intros Hs Hb Hle. induction Hs as [|[q t] X Hs IH Hall].
  { simpl. rewrite Z.sub_diag, filter_cons, filter_nil. simpl.
    rewrite Z.sub_diag. destruct (Z.ltb_spec w 0), (decide (0 ≤ w)); (done || lia). }
  apply Forall_cons in Hb as [Ht Hb]. simpl in Ht. specialize (IH Hb).
  rewrite filter_cons. simpl.
  destruct (decide (hi - t ≤ w)) as [Hin|Hout].
  - assert (Hkeep : filter (λ e : string * Z, hi - e.2 ≤ w) X = X).
    { apply filter_all. eapply Forall_impl; [exact Hall|].
      unfold ts_le. simpl. intros e. lia. }
    rewrite Hkeep in IH |- *. simpl.
    destruct (Z.ltb_spec w (ts - t)) as [Hold|Hnew].
    + rewrite IH. by rewrite (filter_cons_False _ (q, t)) by (simpl; lia).
    + symmetry. apply (filter_all (λ e : string * Z, ts - e.2 ≤ w)).
      constructor; [simpl; lia|]. apply Forall_app. split.
      * eapply Forall_impl; [exact Hall|]. unfold ts_le. simpl. intros e. lia.
      * repeat constructor. simpl. lia.
  - rewrite IH. by rewrite (filter_cons_False _ (q, t)) by (simpl; lia).
Qed.

Lemma count_window p w ts (L : list (Z * string)) :
  count_payload p (filter (λ e, ts - e.2 ≤ w) (prod_swap <$> L))
  = Z.of_nat (length (filter (λ d, d.2 = p ∧ ts - d.1 ≤ w) L)).
Proof.
  unfold count_payload. f_equal.
  induction L as [|[t q] L IH]; [done|].
  rewrite fmap_cons, !filter_cons. simpl.
  destruct (decide (ts - t ≤ w)) as [Hw|Hw].
  - rewrite filter_cons. simpl.
    destruct (decide (q = p)) as [Hq|Hq].
    + rewrite decide_True by done. simpl. by rewrite IH.
    + rewrite decide_False by (by intros [? _]). done.
  - rewrite decide_False by (by intros [_ ?]). done.
Qed.

(** The confirmation of a frame-derived decoder over detections in
    timestamp order: [S] are the detections already taken, of which the
    state holds the window ending at [hi]. *)
Lemma detect_all_first_reaching cfg dec w ds :
  dec ≠ "AVFOUNDATION" →
  int_of_float (confirmation_window_ms cfg * 1e6)%float = Some w →
  ts_ordered ds →
  ∀ hi S st,
    confirm_detect_ns st = None →
    StronglySorted ts_le (prod_swap <$> S) →
    Forall (λ e, e.2 ≤ hi) (prod_swap <$> S) →
    history st = filter (λ e, hi - e.2 ≤ w) (prod_swap <$> S) →
    Forall (λ d, hi ≤ d.1) ds →
    detect_all cfg dec ds (Some st) ≫= confirm_detect_ns =
      first_reaching w (confirmations_required cfg) S ds.
Proof.
  intros Hdec Hw Hord.
  induction Hord as [|[ts p] ds Hord IH Hafter];
    intros hi S st Hnone Hs Hb Hh Hlo; [done|].
  apply Forall_cons in Hlo as [Hle Hlo]. simpl in Hle.
  destruct (detect_threshold cfg dec w ts p st Hdec Hw Hnone) as [Hh' Hc'].
  change (detect_all cfg dec ((ts, p) :: ds) (Some st))
    with (detect_all cfg dec ds (Some (detect cfg dec ts p st).1)).
  destruct (snoc_ordered hi ts p _ Hle Hs Hb) as [Hs' Hb'].
  assert (Hhist : history (detect cfg dec ts p st).1 =
            filter (λ e, ts - e.2 ≤ w) (prod_swap <$> (S ++ [(ts, p)]))).
  { rewrite Hh', Hh, fmap_app. by apply evict_window. }
  assert (Hcount : count_payload p (history (detect cfg dec ts p st).1)
                   = window_count w S ts p).
  { rewrite Hhist. apply count_window. }
  rewrite Hcount in Hc'. simpl first_reaching.
  destruct (confirmations_required cfg <=? window_count w S ts p).
  - by apply detect_all_latched.
  - apply (IH ts); [done|by rewrite fmap_app..|done|].
    eapply Forall_impl; [exact Hafter|]. done.
Qed.

(** C3, as stated, fails for the frame-derived decoders: with the
    default configuration (two confirmations within 500 ms) the
    detections stamped 1.0 s with payload x, 0.4 s with payload p and
    1.0 s with payload p are all accepted; at the last one only one
    detection with payload p lies within 500 ms, and no detection ever
    has two, yet VISION is confirmed at 1.0 s. *)
Lemma stale_payload_confirms :
  let calls := [OnDetection "VISION" 1000000000 "x";
                OnDetection "VISION" 400000000 "p";
                OnDetection "VISION" 1000000000 "p"] in
  let taken := accepted_for "VISION" 0 3000000000 calls in
  taken = [(1000000000, "x"); (400000000, "p"); (1000000000, "p")]
  ∧ window_count 500000000 [(1000000000, "x"); (400000000, "p")] 1000000000 "p" = 1
  ∧ first_reaching 500000000 (confirmations_required default_config) [] taken = None
  ∧ pair_state (run calls trial1) 1 "VISION" ≫= confirm_detect_ns = Some 1000000000.
Proof. vm_compute. repeat split; reflexivity. Qed.

(** C3, amended: in a trial that stays active, for a pair that starts
    without state and a confirmation window of [w] ns.  The AVFOUNDATION
    decoder, when [confirmations_required > 1], ends with its confirmed
    timestamp set, equal to its first-detection timestamp, as soon as it
    has one accepted detection: so also when the count never reaches
    [confirmations_required].  Every other decoder whose accepted
    detections arrive in non-decreasing timestamp order ends with its
    confirmed timestamp equal to the timestamp of its first accepted
    detection at which the number of its accepted detections carrying
    that payload and no older than [w] reaches [confirmations_required],
    and unset when there is no such detection. *)
Theorem confirmation_policies c tid trial calls w :
  _active_trial_id c = Some tid → _trials c !! tid = Some trial →
  Forall (λ call, is_start call = false) calls →
  int_of_float (confirmation_window_ms (config c) * 1e6)%float = Some w →
  let req := confirmations_required (config c) in
  let taken dec := accepted_for dec (t0_ns trial) (timeout_ns trial) calls in
  (1 < req →
   per_decoder trial !! "AVFOUNDATION" = None →
   taken "AVFOUNDATION" ≠ [] →
   ∃ st, pair_state (run calls c) tid "AVFOUNDATION" = Some st
         ∧ confirm_detect_ns st = first_detect_ns st
         ∧ is_Some (first_detect_ns st))
  ∧ (∀ dec,
       dec ≠ "AVFOUNDATION" →
       per_decoder trial !! dec = None →
       ts_ordered (taken dec) →
       pair_state (run calls c) tid dec ≫= confirm_detect_ns =
         first_reaching w req [] (taken dec)).
Proof.
  intros Ha Ht Hns Hw req taken. split.
  - intros Hreq Hnew Hne.
    rewrite (run_pair_state calls c tid trial) by done. rewrite Hnew.
    by apply (detect_all_passive _ w).
  - intros dec Hdec Hnew Hord.
    rewrite (run_pair_state calls c tid trial) by done. rewrite Hnew.
    fold (taken dec). destruct (taken dec) as [|[ts payload] ds] eqn:Htaken; [done|].
    change (detect_all (config c) dec ((ts, payload) :: ds) None)
      with (detect_all (config c) dec ((ts, payload) :: ds) (Some fresh_state)).
    apply (detect_all_first_reaching _ _ w _ Hdec Hw Hord ts []);
      [done|constructor|constructor|done|].
    constructor; [done|].
    apply StronglySorted_cons in Hord as [Hall _]. exact Hall.
Qed.

Lemma confirmation_policies_witness :
  let calls := [OnDetection "AVFOUNDATION" 5 "QR"; OnDetection "VISION" 7 "QR";
                OnDetection "AVFOUNDATION" 900000000 "QR"; EndTrial 8 1;
                OnDetection "VISION" 9 "QR"; OnDetection "VISION" 11 "QR"] in
  (∃ st, pair_state (run calls trial1) 1 "AVFOUNDATION" = Some st
         ∧ confirm_detect_ns st = first_detect_ns st
         ∧ is_Some (first_detect_ns st))
  ∧ pair_state (run calls trial1) 1 "VISION" ≫= confirm_detect_ns = Some 9.
Proof.
  intros calls.
  assert (Hns : Forall (λ call, is_start call = false) calls)
    by (repeat constructor).
  destruct (confirmation_policies trial1 1 record1 calls 500000000
              eq_refl eq_refl Hns eq_refl) as [H1 H2].
  split.
  - apply H1; vm_compute; (reflexivity || (intros; discriminate)).
  - apply (H2 "VISION"); [intros; discriminate|reflexivity|].
    repeat (constructor; [repeat constructor; simpl; lia|]). constructor.
Defined.


(** *** Summary rows *)

(** Where a first detection is present and its timestamp is not 0, the
    row reports success. *)
Lemma summary_row_present tid trial dec st f d :
  per_decoder trial !! dec = Some st →
  first_detect_ns st = Some f → f ≠ 0 →
  float_of_int (f - t0_ns trial) = Some d →
  ∀ row, summary_row tid trial dec = Returned row →
    success row = true ∧ first_detect_latency_ms row = Some (d / 1e6)%float
    ∧ row_trial_id row = tid ∧ row_decoder row = dec.
Proof.
  intros Hst Hf Hnz Hd row. unfold summary_row. rewrite Hst. simpl.
  rewrite Hf. simpl. destruct (Z.eqb_spec f 0) as [|_]; [done|]. rewrite Hd.
  destruct (latency_ms _ _); [|done]. by intros [= <-].
Qed.





Lemma summary_row_50ms :
  summary_row 1
    {| trial_id := 1; t0_ns := 1000000000; timeout_ns := 4000000000;
       per_decoder := {[ "VISION" := {| first_detect_ns := Some 1050000000;
                                        confirm_detect_ns := None;
                                        history := [("QR", 1050000000)] |} ]} |}
    "VISION"
  = Returned {| row_trial_id := 1; row_decoder := "VISION"; success := true;
                first_detect_latency_ms := Some 50%float;
                confirm_detect_latency_ms := None |}.
Proof. vm_compute. reflexivity. Qed.

(** C8 fails on the code for a timestamp of 0: after
    [start_trial(1, 0)] and [on_detection("VISION", 0, "QR")] the VISION
    pair of trial 1 has its first detection at 0 ns, and
    [trials_summary_rows] reports that pair with [success] false and no
    first-detection latency, where a present first detection means success and
    (0 - 0) / 1e6 = 0.0 ms. *)
Theorem summary_rows_zero_timestamp :
  let c := run [StartTrial 1 0; OnDetection "VISION" 0 "QR"] idle in
  pair_state c 1 "VISION" ≫= first_detect_ns = Some 0
  ∧ trials_summary_rows c =
      Returned
        [ {| row_trial_id := 1; row_decoder := "AVFOUNDATION"; success := false;
             first_detect_latency_ms := None; confirm_detect_latency_ms := None |};
          {| row_trial_id := 1; row_decoder := "VISION"; success := false;
             first_detect_latency_ms := None; confirm_detect_latency_ms := None |};
          {| row_trial_id := 1; row_decoder := "ZXING"; success := false;
             first_detect_latency_ms := None; confirm_detect_latency_ms := None |} ].
Proof. split; vm_compute; reflexivity. Qed.

End TrialEngine.

(** ** The frame path *)

Section FramePath.
Import Camera.

Lemma submissions_frame parallel i t :
  t ∈ submissions parallel i → task_frame t = i.
Proof.
  unfold submissions. destruct parallel.
  - intros [->|[->|[]%not_elem_of_nil]%elem_of_cons]%elem_of_cons; done.
  - intros [->|[]%not_elem_of_nil]%elem_of_cons; done.
Qed.

Lemma submissions_nonempty parallel i : ∃ t, t ∈ submissions parallel i.
Proof. unfold submissions. destruct parallel; eexists; apply list_elem_of_here. Qed.

Lemma on_video_sample_spec now s :
  1 ≤ throttle_n_frames s →
  let s' := (on_video_sample now s).1 in
  let seq := _frame_index s + 1 in
  (on_video_sample now s).2 = Returned ()
  ∧ _frame_index s' = seq
  ∧ logger s' = log now "live" None "PIPELINE" "FRAME_RECEIVED" (Some seq) None (logger s)
  ∧ frames_received (metrics s') = frames_received (metrics s) + 1
  ∧ throttle_n_frames s' = throttle_n_frames s
  ∧ parallel_decode s' = parallel_decode s
  ∧ _decode_queue s' = _decode_queue s
  ∧ _executor s' =
      if decide (seq mod throttle_n_frames s = 0)
      then _executor s ++ submissions (parallel_decode s) seq
      else _executor s.
Proof.
  intros HN. unfold on_video_sample, py_mod.
  destruct (Z.eqb_spec (throttle_n_frames s) 0) as [|_]; [lia|].
  destruct (Z.eqb_spec ((_frame_index s + 1) mod throttle_n_frames s) 0) as [Hz|Hz];
    simpl; case_decide; done.
Qed.

Lemma deliver_snoc nows now s :
  deliver (nows ++ [now]) s = (on_video_sample now (deliver nows s)).1.
Proof. unfold deliver. by rewrite foldl_app. Qed.

(** C6: a new session has counted no frame and holds a throttle factor
    [N >= 1], the configured one when that is at least 1.  Each delivered
    frame gets the sequence number one above the previous frame's, the
    log grows by exactly one row, the FRAME_RECEIVED event of the
    pipeline with that number and the clock read of the call, and
    decode tasks for the frame are appended to the executor exactly when
    the number is 0 modulo [N].  Hence the frames delivered to a new
    session are numbered 1, 2, 3, ... and the frames with submitted tasks
    are those whose number is 0 modulo [N]. *)
Theorem frame_sequence_and_throttle :
  (∀ events throttle parallel,
      let s := new_session events throttle parallel in
      _frame_index s = 0 ∧ 1 ≤ throttle_n_frames s
      ∧ throttle_n_frames s = Z.max 1 throttle)
  ∧ (∀ now s,
      1 ≤ throttle_n_frames s →
      let s' := (on_video_sample now s).1 in
      let seq := _frame_index s + 1 in
      (on_video_sample now s).2 = Returned ()
      ∧ _frame_index s' = seq
      ∧ logger s' =
          logger s
          ++ [ {| timestamp_ns := now; mode := "live"; decoder := "PIPELINE";
                  event_type := "FRAME_RECEIVED"; trial_id := None;
                  frame_index := Some seq; conversion_ms := None;
                  decode_duration_ms := None; payload_string := None;
                  payload_changed := None |} ]
      ∧ (seq mod throttle_n_frames s = 0 →
           _executor s' = _executor s ++ submissions (parallel_decode s) seq
           ∧ ∃ t, t ∈ submissions (parallel_decode s) seq)
      ∧ (seq mod throttle_n_frames s ≠ 0 → _executor s' = _executor s))
  ∧ (∀ events throttle parallel nows,
      let s := deliver nows (new_session events throttle parallel) in
      _frame_index s = Z.of_nat (length nows)
      ∧ ∀ i, (∃ t, t ∈ _executor s ∧ task_frame t = i)
             ↔ 1 ≤ i ≤ Z.of_nat (length nows) ∧ i mod Z.max 1 throttle = 0).
Proof.
  split; [|split].
  - intros events throttle parallel. simpl. lia.
  - intros now s HN.
    destruct (on_video_sample_spec now s HN) as (Hr & Hi & Hl & _ & _ & _ & _ & He).
    cbv zeta. rewrite Hr, Hi, Hl, He. repeat split.
    + by case_decide.
    + apply submissions_nonempty.
    + by case_decide.
  - intros events throttle parallel nows.
    induction nows as [|now nows IH] using rev_ind.
    + simpl. split; [done|]. intros i. split; [|lia].
      intros (t & Ht & _). by apply not_elem_of_nil in Ht.
    + cbv zeta in *. rewrite deliver_snoc, length_app. simpl.
      set (s := deliver nows (new_session events throttle parallel)) in *.
      destruct IH as [Hidx Htasks].
      assert (HN : throttle_n_frames s = Z.max 1 throttle).
      { subst s. clear. induction nows as [|now nows IH] using rev_ind; [done|].
        rewrite deliver_snoc.
        destruct (on_video_sample_spec now
                    (deliver nows (new_session events throttle parallel)))
          as (_ & _ & _ & _ & -> & _); [lia|done]. }
      destruct (on_video_sample_spec now s) as (_ & Hi & _ & _ & _ & _ & _ & He);
        [lia|].
      rewrite Hi, He, HN, Hidx. split; [lia|]. intros i.
      destruct (decide ((Z.of_nat (length nows) + 1) mod Z.max 1 throttle = 0))
        as [Hmod|Hmod].
      * split.
        -- intros (t & [Ht|Ht]%elem_of_app & Hf).
           ++ destruct (proj1 (Htasks i)) as [? ?]; [by exists t|]. lia.
           ++ apply submissions_frame in Ht. rewrite Ht in Hf. subst i.
              split; [lia|done].
        -- intros [Hi' Hm].
           destruct (decide (i = Z.of_nat (length nows) + 1)) as [->|Hne].
           ++ destruct (submissions_nonempty (parallel_decode s)
                          (Z.of_nat (length nows) + 1)) as [t Ht].
              exists t. split; [apply elem_of_app; by right|].
              by apply submissions_frame in Ht.
           ++ destruct (proj2 (Htasks i)) as (t & Ht & Hf); [lia|].
              exists t. split; [apply elem_of_app; by left|done].
      * rewrite Htasks. split; [lia|]. intros [Hi' Hm]. split; [|done].
        destruct (decide (i = Z.of_nat (length nows) + 1)) as [->|]; [done|lia].
Qed.

Lemma frame_sequence_and_throttle_witness :
  let s := deliver [10; 20; 30] (new_session [] 2 true) in
  (on_video_sample 40 s).2 = Returned ()
  ∧ _frame_index (on_video_sample 40 s).1 = 3 + 1
  ∧ logger (on_video_sample 40 s).1 =
      logger s
      ++ [ {| timestamp_ns := 40; mode := "live"; decoder := "PIPELINE";
              event_type := "FRAME_RECEIVED"; trial_id := None;
              frame_index := Some (3 + 1); conversion_ms := None;
              decode_duration_ms := None; payload_string := None;
              payload_changed := None |} ]
  ∧ ((3 + 1) mod 2 = 0 →
       _executor (on_video_sample 40 s).1 = _executor s ++ submissions true (3 + 1)
       ∧ ∃ t, t ∈ submissions true (3 + 1))
  ∧ ((3 + 1) mod 2 ≠ 0 → _executor (on_video_sample 40 s).1 = _executor s).
Proof.
  intros s.
  apply (proj1 (proj2 frame_sequence_and_throttle) 40 s).
  vm_compute. intros; discriminate.
Defined.

(** C4, as stated, fails: three frames delivered to a session with
    throttle 1 and parallel decode leave six tasks in the executor, more
    than the pool's four workers and than the declared queue bound of 2;
    the fourth frame's two tasks are submitted all the same, the only
    event logged is FRAME_RECEIVED, and the bounded queue stays empty. *)
Lemma saturated_pool_still_submits :
  let s := deliver [10; 20; 30] (new_session [] 1 true) in
  let s' := (on_video_sample 40 s).1 in
  max_workers < Z.of_nat (length (_executor s))
  ∧ decode_queue_maxsize < Z.of_nat (length (_executor s))
  ∧ _executor s' = _executor s ++ [RunDecode "VISION" 4; RunDecode "ZXING" 4]
  ∧ logger s' = log 40 "live" None "PIPELINE" "FRAME_RECEIVED" (Some 4) None (logger s)
  ∧ _decode_queue s' = [].
Proof. vm_compute. repeat split; reflexivity. Qed.

(** C4, amended: for every sampled frame (sequence number 0 modulo the
    throttle factor) the decode submissions of the frame, two tasks in
    parallel mode and one in serial mode, are appended to the executor
    whatever the number of tasks already pending there; the call
    returns, logs the FRAME_RECEIVED event only and leaves the bounded
    queue untouched. *)
Theorem sampled_frame_always_submitted now s :
  1 ≤ throttle_n_frames s →
  (_frame_index s + 1) mod throttle_n_frames s = 0 →
  let s' := (on_video_sample now s).1 in
  (on_video_sample now s).2 = Returned ()
  ∧ _executor s' = _executor s ++ submissions (parallel_decode s) (_frame_index s + 1)
  ∧ length (_executor s') =
      (length (_executor s) + if parallel_decode s then 2 else 1)%nat
  ∧ logger s' =
      log now "live" None "PIPELINE" "FRAME_RECEIVED" (Some (_frame_index s + 1)) None
        (logger s)
  ∧ _decode_queue s' = _decode_queue s.
Proof.
  intros HN Hmod.
  destruct (on_video_sample_spec now s HN) as (Hr & _ & Hl & _ & _ & _ & Hq & He).
  cbv zeta. rewrite Hr, Hl, Hq, He. rewrite decide_True by done.
  repeat split. rewrite length_app. by destruct (parallel_decode s).
Qed.

Lemma sampled_frame_always_submitted_witness :
  let s := deliver [10; 20; 30] (new_session [] 1 true) in
  let s' := (on_video_sample 40 s).1 in
  (on_video_sample 40 s).2 = Returned ()
  ∧ _executor s' = _executor s ++ submissions true (3 + 1)
  ∧ length (_executor s') = (6 + 2)%nat
  ∧ logger s' = log 40 "live" None "PIPELINE" "FRAME_RECEIVED" (Some (3 + 1)) None (logger s)
  ∧ _decode_queue s' = [].
Proof.
  intros s.
  apply (sampled_frame_always_submitted 40 s); vm_compute; (reflexivity || (intros; discriminate)).
Defined.

End FramePath.

(** ** The trial map over sequences of calls *)

Section TrialMap.
Import Live LiveTraces LiveInvariants.

Lemma trials_step call c tid trial :
  _trials c !! tid = Some trial →
  ∃ trial',
    _trials (step call c) !! tid = Some trial'
    ∧ (starts tid call = false →
       trial_id trial' = trial_id trial ∧ t0_ns trial' = t0_ns trial
       ∧ timeout_ns trial' = timeout_ns trial).
Proof.
  intros Ht. destruct call as [tid0 t0|now tid0|dec ts payload]; simpl.
  - unfold start_trial. destruct (int_of_float _); simpl; [|by exists trial].
    case_bool_decide as Hd.
    + subst. rewrite lookup_insert_eq. by eexists.
    + rewrite lookup_insert_ne by done. by exists trial.
  - by exists trial.
  - destruct (accepting c ts) as [[tid1 trial1]|] eqn:Hacc.
    + destruct (on_detection_accepted dec _ payload _ _ _ Hacc) as (-> & _ & _).
      destruct (accepting_inv _ _ _ _ Hacc) as (_ & Hl & _).
      destruct (decide (tid = tid1)) as [->|Hne].
      * rewrite lookup_insert_eq. eexists. split; [done|].
        rewrite Hl in Ht. by injection Ht as ->.
      * rewrite lookup_insert_ne by done. by exists trial.
    + rewrite on_detection_rejected by done. by exists trial.
Qed.

Lemma record_run_no_start calls c tid trial :
  Forall (λ call, is_start call = false) calls →
  _trials c !! tid = Some trial →
  ∃ trial',
    _trials (run calls c) !! tid = Some trial'
    ∧ trial_id trial' = trial_id trial ∧ t0_ns trial' = t0_ns trial
    ∧ timeout_ns trial' = timeout_ns trial.
Proof.
  intros Hns. revert c trial.
  induction Hns as [|call calls Hcall _ IH]; intros c trial Ht; [by exists trial|].
  destruct (trials_step call c tid trial Ht) as (trial1 & Ht1 & Hsame1).
  destruct (IH _ _ Ht1) as (trial2 & Ht2 & F1 & F2 & F3).
  assert (Hst : starts tid call = false) by (by destruct call).
  destruct (Hsame1 Hst) as (E1 & E2 & E3).
  exists trial2. split; [done|]. repeat split; congruence.
Qed.

(** X1: no call removes a trial: a trial id present in the map is still
    present after any sequence of calls, and unless [start_trial] is
    called again for that id its record keeps its id, its start and its
    timeout. *)
Theorem trials_never_removed calls c tid trial :
  _trials c !! tid = Some trial →
  ∃ trial',
    _trials (run calls c) !! tid = Some trial'
    ∧ (Forall (λ call, starts tid call = false) calls →
       trial_id trial' = trial_id trial ∧ t0_ns trial' = t0_ns trial
       ∧ timeout_ns trial' = timeout_ns trial).
Proof.
  revert c trial. induction calls as [|call calls IH]; intros c trial Ht.
  { by exists trial. }
  destruct (trials_step call c tid trial Ht) as (trial1 & Ht1 & Hsame1).
  destruct (IH _ _ Ht1) as (trial2 & Ht2 & Hsame2).
  exists trial2. split; [done|].
  intros [Hc Hcs]%Forall_cons.
  destruct (Hsame1 Hc) as (E1 & E2 & E3), (Hsame2 Hcs) as (F1 & F2 & F3).
  repeat split; congruence.
Qed.

Lemma trials_never_removed_witness :
  ∃ trial',
    _trials (run [OnDetection "VISION" 5 "QR"; StartTrial 2 10; EndTrial 20 1] trial1) !! 1
      = Some trial'
    ∧ (Forall (λ call, starts 1 call = false)
         [OnDetection "VISION" 5 "QR"; StartTrial 2 10; EndTrial 20 1] →
       trial_id trial' = trial_id record1 ∧ t0_ns trial' = t0_ns record1
       ∧ timeout_ns trial' = timeout_ns record1).
Proof.
  apply (trials_never_removed
           [OnDetection "VISION" 5 "QR"; StartTrial 2 10; EndTrial 20 1] trial1 1 record1).
  reflexivity.
Defined.

Lemma logger_step call c :
  ∃ suffix, logger (step call c) = logger c ++ suffix ∧ (length suffix ≤ 1)%nat.
Proof.
  assert (Hsame : ∃ suffix, logger c = logger c ++ suffix ∧ (length suffix ≤ 1)%nat).
  { exists []. rewrite app_nil_r. simpl. split; [done|lia]. }
  assert (Hone : ∀ e, ∃ suffix,
             logger c ++ [e] = logger c ++ suffix ∧ (length suffix ≤ 1)%nat).
  { intros e. exists [e]. simpl. split; [done|lia]. }
  destruct call as [tid0 t0|now tid0|dec ts payload]; simpl.
  - unfold start_trial. destruct (int_of_float _); simpl; [apply Hone|done].
  - apply Hone.
  - unfold on_detection.
    destruct (_active_trial_id c); [|done].
    destruct (_trials c !! _); [|done].
    destruct (_ || _); [done|].
    destruct (detect _ _ _ _ _) as [st' [[]|]]; simpl; [apply Hone|done].
Qed.

(** X2: the event log only grows: after any sequence of calls the log
    is the earlier log followed by at most one new event per call. *)
Theorem logger_append_only calls c :
  ∃ suffix,
    logger (run calls c) = logger c ++ suffix
    ∧ (length suffix ≤ length calls)%nat.
Proof.
  revert c. induction calls as [|call calls IH]; intros c.
  { exists []. rewrite app_nil_r. split; [done|simpl; lia]. }
  destruct (logger_step call c) as (s1 & H1 & L1).
  destruct (IH (step call c)) as (s2 & H2 & L2).
  exists (s1 ++ s2). unfold run in *. simpl. rewrite H2, H1, app_assoc.
  split; [done|]. rewrite length_app. simpl. lia.
Qed.

(** X3: a detection is attributed to the active trial and to its own
    decoder only: [on_detection] leaves the state of every pair of a
    trial that is not the active one, and of every other decoder,
    as it was. *)
Theorem on_detection_other_pairs dec ts payload c tid' dec' :
  _active_trial_id c ≠ Some tid' ∨ dec' ≠ dec →
  pair_state (on_detection dec ts payload c).1 tid' dec' = pair_state c tid' dec'.
Proof.
  intros Hother. rewrite pair_state_on_detection.
  destruct (accepting c ts) as [[tid trial]|] eqn:Hacc; [|done].
  destruct (accepting_inv _ _ _ _ Hacc) as (Ha & _ & _).
  case_bool_decide as Hd; [|done].
  destruct Hd as [-> ->]. by destruct Hother.
Qed.

Lemma on_detection_other_pairs_witness :
  pair_state (on_detection "VISION" 20 "QR"
                (run [OnDetection "ZXING" 5 "QR"; StartTrial 2 10] trial1)).1 1 "ZXING"
  = pair_state (run [OnDetection "ZXING" 5 "QR"; StartTrial 2 10] trial1) 1 "ZXING".
Proof.
  apply on_detection_other_pairs. left. vm_compute. intros; discriminate.
Defined.

Lemma detect_in_bounds cfg dec ts payload trial st :
  t0_ns trial ≤ ts ≤ timeout_ns trial →
  in_bounds trial st → in_bounds trial (detect cfg dec ts payload st).1.
Proof.
  intros Hts (Hf & Hk & Hh).
  assert (Hfirst : ∀ f, default ts (first_detect_ns st) = f →
                        t0_ns trial ≤ f ≤ timeout_ns trial).
  { intros f. destruct (first_detect_ns st) as [f0|]; simpl; intros <-; [by apply Hf|done]. }
  split; [|split].
  - intros f. rewrite first_detect_detect. intros [= <-]. by apply Hfirst.
  - unfold detect. destruct (int_of_float _) as [w|]; simpl; [|done].
    unfold confirm. simpl. intros k.
    destruct (confirm_detect_ns st) as [k0|]; [intros [= <-]; by apply Hk|].
    destruct (_ && _).
    + destruct (first_detect_ns st) as [f0|] eqn:Hf0; intros [= <-]; [by apply Hf|done].
    + destruct (_ <=? _); [|done]. by intros [= <-].
  - unfold detect. destruct (int_of_float _) as [w|]; simpl; [|done].
    destruct (evict_suffix w ts (history st ++ [(payload, ts)])) as [pre Hpre].
    assert (Hall : Forall (λ e, t0_ns trial ≤ e.2 ≤ timeout_ns trial)
                     (history st ++ [(payload, ts)])).
    { apply Forall_app. split; [done|]. constructor; [done|constructor]. }
    rewrite Hpre in Hall. by apply Forall_app in Hall as [_ ?].
Qed.

Lemma in_bounds_fresh trial : in_bounds trial fresh_state.
Proof. repeat split; simpl; (done || constructor). Qed.

Lemma bounded_step call c : bounded_controller c → bounded_controller (step call c).
Proof.
  intros Hinv tid trial. rewrite config_step. unfold bounded_controller in Hinv.
  destruct call as [tid0 t0|now tid0|dec ts payload]; simpl.
  - unfold start_trial. destruct (int_of_float _) as [span|] eqn:Hspan; simpl;
      [|apply Hinv].
    destruct (decide (tid = tid0)) as [->|Hne].
    + rewrite lookup_insert_eq. intros [= <-]. simpl. split; [done|].
      split; [f_equal; lia|]. intros dec st. by rewrite lookup_empty.
    + rewrite lookup_insert_ne by done. apply Hinv.
  - apply Hinv.
  - destruct (accepting c ts) as [[tid1 trial1]|] eqn:Hacc;
      [|rewrite on_detection_rejected by done; apply Hinv].
    destruct (on_detection_accepted dec _ payload _ _ _ Hacc) as (-> & _ & _).
    destruct (accepting_inv _ _ _ _ Hacc) as (_ & Hl & Hts).
    destruct (decide (tid = tid1)) as [->|Hne];
      [|rewrite lookup_insert_ne by done; apply Hinv].
    rewrite lookup_insert_eq. intros [= <-]. simpl.
    destruct (Hinv _ _ Hl) as (Hid & Hspan & Hpairs).
    split; [done|]. split; [done|]. intros dec' st.
    destruct (decide (dec' = dec)) as [->|Hd].
    + rewrite lookup_insert_eq. intros [= <-].
      apply (detect_in_bounds _ _ _ _ trial1); [done|].
      destruct (per_decoder trial1 !! dec) as [old|] eqn:Hold; simpl.
      * by apply (Hpairs dec).
      * apply in_bounds_fresh.
    + rewrite lookup_insert_ne by done. apply Hpairs.
Qed.

Lemma bounded_run calls c : bounded_controller c → bounded_controller (run calls c).
Proof.
  revert c. induction calls as [|call calls IH]; intros c Hinv; [done|].
  unfold run in *. simpl. by apply IH, bounded_step.
Qed.

Lemma bounded_reachable events cfg calls :
  bounded_controller (run calls (new_controller events cfg)).
Proof. apply bounded_run. intros t r. simpl. by rewrite lookup_empty. Qed.

(** X4: in every state a new controller can reach, each trial record is
    filed under its own id, its timeout is its start plus
    [int(timeout_s * 1e9)], and every timestamp it recorded (first
    detection, confirmation, history entries, for every decoder) lies
    between its start and its timeout. *)
Theorem recorded_timestamps_in_bounds events cfg calls tid trial :
  _trials (run calls (new_controller events cfg)) !! tid = Some trial →
  trial_id trial = tid
  ∧ int_of_float (timeout_s cfg * 1e9)%float = Some (timeout_ns trial - t0_ns trial)
  ∧ ∀ dec st, per_decoder trial !! dec = Some st →
      (∀ f, first_detect_ns st = Some f → t0_ns trial ≤ f ≤ timeout_ns trial)
      ∧ (∀ k, confirm_detect_ns st = Some k → t0_ns trial ≤ k ≤ timeout_ns trial)
      ∧ Forall (λ e, t0_ns trial ≤ e.2 ≤ timeout_ns trial) (history st).
Proof.
  intros Ht.
  destruct (bounded_reachable events cfg calls _ _ Ht) as (Hid & Hspan & Hpairs).
  rewrite config_run in Hspan. done.
Qed.

Lemma recorded_timestamps_in_bounds_witness :
  let trial :=
    {| trial_id := 1; t0_ns := 0; timeout_ns := 3000000000;
       per_decoder := {[ "VISION" := {| first_detect_ns := Some 7;
                                        confirm_detect_ns := Some 9;
                                        history := [("QR", 7); ("QR", 9)] |} ]} |} in
  trial_id trial = 1
  ∧ int_of_float (timeout_s default_config * 1e9)%float
    = Some (timeout_ns trial - t0_ns trial)
  ∧ ∀ dec st, per_decoder trial !! dec = Some st →
      (∀ f, first_detect_ns st = Some f → t0_ns trial ≤ f ≤ timeout_ns trial)
      ∧ (∀ k, confirm_detect_ns st = Some k → t0_ns trial ≤ k ≤ timeout_ns trial)
      ∧ Forall (λ e, t0_ns trial ≤ e.2 ≤ timeout_ns trial) (history st).
Proof.
  intros trial.
  apply (recorded_timestamps_in_bounds [] default_config
           [StartTrial 1 0; OnDetection "VISION" 7 "QR"; OnDetection "VISION" (-3) "QR";
            OnDetection "VISION" 9 "QR"] 1 trial).
  vm_compute. reflexivity.
Defined.

Lemma detect_all_first cfg dec ds entry :
  detect_all cfg dec ds entry ≫= first_detect_ns =
    match entry ≫= first_detect_ns with
    | Some f => Some f
    | None => fst <$> head ds
    end.
Proof.
  revert entry. induction ds as [|[ts payload] ds IH]; intros entry.
  { simpl. by destruct (entry ≫= first_detect_ns). }
  change (detect_all cfg dec ((ts, payload) :: ds) entry)
    with (detect_all cfg dec ds
            (Some (detect cfg dec ts payload (default fresh_state entry)).1)).
  rewrite IH. simpl. rewrite first_detect_detect.
  destruct entry as [st|]; simpl; [|done].
  by destruct (first_detect_ns st).
Qed.

(** X5: in a trial that stays active, the first-detection timestamp of
    a pair that starts without state is the timestamp of the first
    detection of its decoder that the trial accepts, in arrival order,
    and is unset while there is none. *)
Theorem first_is_first_accepted c tid trial calls dec :
  _active_trial_id c = Some tid → _trials c !! tid = Some trial →
  Forall (λ call, is_start call = false) calls →
  per_decoder trial !! dec = None →
  pair_state (run calls c) tid dec ≫= first_detect_ns =
    fst <$> head (accepted_for dec (t0_ns trial) (timeout_ns trial) calls).
Proof.
  intros Ha Ht Hns Hnew.
  rewrite (run_pair_state calls c tid trial) by done.
  by rewrite detect_all_first, Hnew.
Qed.

Lemma first_is_first_accepted_witness :
  pair_state (run [OnDetection "VISION" (-4) "QR"; OnDetection "ZXING" 3 "QR";
                   OnDetection "VISION" 9 "QR"; OnDetection "VISION" 8 "QR"] trial1)
    1 "VISION" ≫= first_detect_ns = Some 9.
Proof.
  apply (first_is_first_accepted trial1 1 record1
           [OnDetection "VISION" (-4) "QR"; OnDetection "ZXING" 3 "QR";
            OnDetection "VISION" 9 "QR"; OnDetection "VISION" 8 "QR"] "VISION");
    first [reflexivity | by repeat constructor].
Defined.

Lemma count_payload_snoc p h q ts :
  count_payload p (h ++ [(q, ts)]) =
    count_payload p h + (if decide (q = p) then 1 else 0).
Proof.
  unfold count_payload. rewrite filter_app, length_app, filter_cons, filter_nil.
  simpl. case_decide; simpl; lia.
Qed.

Lemma count_payload_evict p w ts h :
  count_payload p (evict w ts h) ≤ count_payload p h.
Proof.
  destruct (evict_suffix w ts h) as [pre Hpre]. rewrite Hpre at 2.
  unfold count_payload. rewrite filter_app, length_app. lia.
Qed.

Lemma detect_single_fresh cfg dec w ts payload :
  confirmations_required cfg ≤ 1 →
  int_of_float (confirmation_window_ms cfg * 1e6)%float = Some w → 0 ≤ w →
  passive_latched (detect cfg dec ts payload fresh_state).1.
Proof.
  intros Hreq Hw Hpos. unfold detect. rewrite Hw. simpl.
  split; [|by eexists]. simpl. unfold confirm. simpl.
  rewrite Z.sub_diag.
  destruct (Z.ltb_spec w 0) as [|_]; [lia|].
  assert (Hc : count_payload payload [(payload, ts)] = 1).
  { change [(payload, ts)] with ([] ++ [(payload, ts)]).
    rewrite count_payload_snoc, decide_True; done. }
  rewrite Hc.
  destruct (Z.ltb_spec 1 (confirmations_required cfg)); [lia|].
  rewrite andb_false_r.
  destruct (Z.leb_spec (confirmations_required cfg) 1); [done|lia].
Qed.

(** X6: with [confirmations_required] at most 1 and a confirmation
    window of [w >= 0] ns, a detection is confirmed the moment it is
    first seen: in every state a new controller can reach, every pair
    with a state has its confirmed timestamp set and equal to its
    first-detection timestamp. *)
Theorem single_confirmation_is_immediate cfg w events calls tid dec st :
  confirmations_required cfg ≤ 1 →
  int_of_float (confirmation_window_ms cfg * 1e6)%float = Some w → 0 ≤ w →
  pair_state (run calls (new_controller events cfg)) tid dec = Some st →
  confirm_detect_ns st = first_detect_ns st ∧ is_Some (first_detect_ns st).
Proof.
  intros Hreq Hw Hpos.
  enough (H : ∀ c, config c = cfg →
            (∀ tid dec st, pair_state c tid dec = Some st → passive_latched st) →
            ∀ tid dec st, pair_state (run calls c) tid dec = Some st →
                          passive_latched st).
  { apply (H (new_controller events cfg) eq_refl).
    intros t d s. unfold pair_state. simpl. by rewrite lookup_empty. }
  induction calls as [|call calls IH]; intros c Hcfg Hinv; [done|].
  unfold run in *. simpl. apply IH; [by rewrite config_step|].
  clear IH tid dec st. intros tid dec st.
  destruct call as [tid0 t0|now tid0|d ts payload]; simpl.
  - rewrite pair_state_start_trial.
    destruct (start_trial tid0 t0 c).2; [|by apply Hinv].
    case_bool_decide; [done|by apply Hinv].
  - by apply Hinv.
  - rewrite pair_state_on_detection.
    destruct (accepting c ts) as [[tid1 trial]|] eqn:Hacc; [|by apply Hinv].
    case_bool_decide as Hd; [|by apply Hinv].
    destruct Hd as [-> ->]. intros [= <-].
    destruct (accepting_inv _ _ _ _ Hacc) as (_ & Hl & _).
    destruct (per_decoder trial !! d) as [old|] eqn:Hold; simpl.
    + apply detect_passive_latched, (Hinv tid1 d).
      by rewrite (pair_state_lookup _ _ _ _ Hl).
    + rewrite Hcfg. by apply (detect_single_fresh cfg d w).
Qed.

Lemma single_confirmation_is_immediate_witness :
  let cfg :=
    {| trials := 10; timeout_s := 3.0; warmup_s := 2.0;
       resolution_preset := "1280x720"; cfg_throttle_n_frames := 1;
       cfg_parallel_decode := true; confirmations_required := 1;
       confirmation_window_ms := 500.0 |} in
  let st := {| first_detect_ns := Some 7; confirm_detect_ns := Some 7;
               history := [("a", 7); ("b", 9)] |} in
  confirm_detect_ns st = first_detect_ns st ∧ is_Some (first_detect_ns st).
Proof.
  intros cfg st.
  apply (single_confirmation_is_immediate cfg 500000000 []
           [StartTrial 1 0; OnDetection "VISION" 7 "a"; OnDetection "VISION" 9 "b"]
           1 "VISION" st); vm_compute; (reflexivity || (intros; discriminate)).
Defined.

Lemma detect_all_needs cfg dec w ds st k :
  dec ≠ "AVFOUNDATION" →
  int_of_float (confirmation_window_ms cfg * 1e6)%float = Some w →
  confirm_detect_ns st = None →
  detect_all cfg dec ds (Some st) ≫= confirm_detect_ns = Some k →
  ∃ p, (k, p) ∈ ds
       ∧ confirmations_required cfg
         ≤ count_payload p (history st) + Z.of_nat (length (matching p ds)).
Proof.
  intros Hdec Hw. revert st.
  induction ds as [|[ts q] ds IH]; intros st Hnone; [simpl; congruence|].
  destruct (detect_threshold cfg dec w ts q st Hdec Hw Hnone) as [Hh Hc].
  change (detect_all cfg dec ((ts, q) :: ds) (Some st))
    with (detect_all cfg dec ds (Some (detect cfg dec ts q st).1)).
  destruct (Z.leb_spec (confirmations_required cfg)
              (count_payload q (history (detect cfg dec ts q st).1))) as [Hle|_].
  - rewrite (detect_all_latched _ _ _ _ ts) by done. intros [= <-].
    exists q. split; [apply list_elem_of_here|].
    pose proof (count_payload_evict q w ts (history st ++ [(q, ts)])) as Hev.
    rewrite count_payload_snoc, decide_True in Hev by done. rewrite <- Hh in Hev.
    unfold matching. rewrite filter_cons_True by done. simpl length. lia.
  - intros (p & Hin & Hreq)%IH; [|done].
    exists p. split; [by apply list_elem_of_further|].
    pose proof (count_payload_evict p w ts (history st ++ [(q, ts)])) as Hev.
    rewrite count_payload_snoc in Hev. rewrite <- Hh in Hev.
    unfold matching in *. rewrite filter_cons. simpl.
    destruct (decide (q = p)); simpl length; lia.
Qed.

(** X7: a decoder other than AVFOUNDATION is confirmed only on
    evidence: in a trial that stays active, if a pair that started
    without state has a confirmed timestamp, that timestamp is the one of
    an accepted detection of the decoder, and at least
    [confirmations_required] accepted detections of the decoder carry
    that detection's payload. *)
Theorem confirmation_needs_detections c tid trial calls dec w st k :
  _active_trial_id c = Some tid → _trials c !! tid = Some trial →
  Forall (λ call, is_start call = false) calls →
  int_of_float (confirmation_window_ms (config c) * 1e6)%float = Some w →
  dec ≠ "AVFOUNDATION" →
  per_decoder trial !! dec = None →
  pair_state (run calls c) tid dec = Some st →
  confirm_detect_ns st = Some k →
  let taken := accepted_for dec (t0_ns trial) (timeout_ns trial) calls in
  ∃ payload,
    (k, payload) ∈ taken
    ∧ confirmations_required (config c) ≤ Z.of_nat (length (matching payload taken)).
Proof.
  intros Ha Ht Hns Hw Hdec Hnew Hst Hk taken.
  rewrite (run_pair_state calls c tid trial) in Hst by done.
  rewrite Hnew in Hst. fold taken in Hst.
  assert (Hk' : detect_all (config c) dec taken (Some fresh_state)
                 ≫= confirm_detect_ns = Some k).
  { destruct taken as [|[ts payload] ds]; [done|].
    change (detect_all (config c) dec ((ts, payload) :: ds) (Some fresh_state))
      with (detect_all (config c) dec ((ts, payload) :: ds) None).
    by rewrite Hst. }
  destruct (detect_all_needs _ dec w _ fresh_state k Hdec Hw eq_refl Hk')
    as (p & Hin & Hreq).
  exists p. split; [done|]. unfold count_payload in Hreq. simpl in Hreq. lia.
Qed.

Lemma confirmation_needs_detections_witness :
  ∃ payload,
    (9, payload) ∈ accepted_for "VISION" 0 3000000000
                     [OnDetection "VISION" 7 "QR"; OnDetection "VISION" 9 "QR"]
    ∧ confirmations_required default_config
      ≤ Z.of_nat (length (matching payload
                            (accepted_for "VISION" 0 3000000000
                               [OnDetection "VISION" 7 "QR";
                                OnDetection "VISION" 9 "QR"]))).
Proof.
  apply (confirmation_needs_detections trial1 1 record1
           [OnDetection "VISION" 7 "QR"; OnDetection "VISION" 9 "QR"] "VISION"
           500000000
           {| first_detect_ns := Some 7; confirm_detect_ns := Some 9;
              history := [("QR", 7); ("QR", 9)] |} 9);
    first [reflexivity | by repeat constructor | (intros; discriminate)].
Defined.

(** X8: [start_trial] for an id forgets what the trial recorded
    before: when the timeout converts to [span] ns, after
    [start_trial(tid, t0)] and further calls without a [start_trial],
    the state of each pair of trial [tid] is the one produced by the
    detections accepted in [t0, t0 + span] since the restart, whatever
    the controller held for that trial before. *)
Theorem restart_forgets c tid t0 span calls dec :
  int_of_float (timeout_s (config c) * 1e9)%float = Some span →
  Forall (λ call, is_start call = false) calls →
  pair_state (run (StartTrial tid t0 :: calls) c) tid dec =
    detect_all (config c) dec (accepted_for dec t0 (t0 + span) calls) None.
Proof.
  intros Hspan Hns. unfold run. simpl. fold (run calls (start_trial tid t0 c).1).
  unfold start_trial. rewrite Hspan. simpl.
  rewrite (run_pair_state calls _ tid
             {| trial_id := tid; t0_ns := t0; timeout_ns := t0 + span;
                per_decoder := ∅ |}); [done|done|done|].
  simpl. by rewrite lookup_insert_eq.
Qed.

Lemma restart_forgets_witness :
  pair_state (run (StartTrial 1 100 :: [OnDetection "VISION" 150 "QR"])
                (run [OnDetection "VISION" 7 "QR"; OnDetection "VISION" 9 "QR"] trial1))
    1 "VISION"
  = detect_all default_config "VISION"
      (accepted_for "VISION" 100 (100 + 3000000000) [OnDetection "VISION" 150 "QR"])
      None.
Proof.
  apply (restart_forgets
           (run [OnDetection "VISION" 7 "QR"; OnDetection "VISION" 9 "QR"] trial1)
           1 100 3000000000 [OnDetection "VISION" 150 "QR"] "VISION");
    first [reflexivity | by repeat constructor].
Defined.

(** *** Summary rows of reachable controllers *)






End TrialMap.

(** ** The scripted run *)

Section ScriptedRun.
Import Live LiveTraces Scripted.

Variable sleep : float → outcome unit.
Variable t0_provider : Z → Z.
Variable clock : Z → Z.
Variable arrivals : Z → list (string * Z * string).

Lemma arrival_calls_no_start i :
  Forall (λ call, is_start call = false) (arrival_calls arrivals i).
Proof.
  unfold arrival_calls. induction (arrivals i) as [|d l IH]; constructor; done.
Qed.

Lemma active_run_no_start calls c :
  Forall (λ call, is_start call = false) calls →
  _active_trial_id (run calls c) = _active_trial_id c.
Proof.
  intros Hns. revert c. induction Hns as [|call calls Hcall _ IH]; intros c; [done|].
  unfold run in *. simpl. rewrite IH.
  destruct call as [?|now tid0|d ts payload]; simpl in *; [done|done|].
  destruct (accepting c ts) as [[tid trial]|] eqn:Hacc.
  - by destruct (on_detection_accepted d _ payload _ _ _ Hacc) as (_ & -> & _).
  - by rewrite on_detection_rejected.
Qed.

Lemma trials_run_other calls c tid j :
  Forall (λ call, is_start call = false) calls →
  _active_trial_id c = Some tid → j ≠ tid →
  _trials (run calls c) !! j = _trials c !! j.
Proof.
  intros Hns. revert c. induction Hns as [|call calls Hcall _ IH]; intros c Ha Hj; [done|].
  unfold run in *. simpl.
  destruct call as [?|now tid0|d ts payload]; simpl in *;
    [done|exact (IH (end_trial now tid0 c).1 Ha Hj)|].
  destruct (accepting c ts) as [[tid1 trial]|] eqn:Hacc.
  - destruct (on_detection_accepted d _ payload _ _ _ Hacc) as (Ht & Ha' & _).
    destruct (accepting_inv _ _ _ _ Hacc) as (Ha1 & _ & _).
    rewrite IH by congruence. rewrite Ht, lookup_insert_ne; [done|congruence].
  - rewrite on_detection_rejected by done. by apply IH.
Qed.

Lemma scripted_spec span ids c :
  NoDup ids →
  int_of_float (timeout_s (config c) * 1e9)%float = Some span →
  sleep (timeout_s (config c)) = Returned () →
  let res := scripted sleep t0_provider clock arrivals ids c in
  res.2 = Returned ()
  ∧ config res.1 = config c
  ∧ (∀ j, j ∉ ids → _trials res.1 !! j = _trials c !! j)
  ∧ (∀ i, i ∈ ids →
       ∃ trial,
         _trials res.1 !! i = Some trial
         ∧ trial_id trial = i ∧ t0_ns trial = t0_provider i
         ∧ timeout_ns trial = t0_provider i + span
         ∧ ∀ dec, per_decoder trial !! dec =
             detect_all (config c) dec
               (accepted_for dec (t0_provider i) (t0_provider i + span)
                  (arrival_calls arrivals i)) None)
  ∧ _active_trial_id res.1 = from_option Some (_active_trial_id c) (last ids).
Proof.
  intros Hnd. revert c. induction Hnd as [|i ids Hni Hnd IH]; intros c Hspan Hsleep.
  { simpl. repeat split; try done. intros i []%not_elem_of_nil. }
  set (rec := {| trial_id := i; t0_ns := t0_provider i;
                 timeout_ns := t0_provider i + span; per_decoder := ∅ |}).
  set (c1 := (start_trial i (t0_provider i) c).1).
  assert (Hst : start_trial i (t0_provider i) c = (c1, Returned ())).
  { subst c1. unfold start_trial. by rewrite Hspan. }
  assert (Hc1 : config c1 = config c ∧ _active_trial_id c1 = Some i
                ∧ _trials c1 = <[i := rec]> (_trials c)).
  { subst c1. unfold start_trial. by rewrite Hspan. }
  destruct Hc1 as (Hcfg1 & Ha1 & Ht1).
  pose proof (arrival_calls_no_start i) as Hns.
  set (c2 := run (arrival_calls arrivals i) c1).
  set (c3 := (end_trial (clock i) i c2).1).
  assert (Hcfg3 : config c3 = config c).
  { subst c3 c2. simpl. by rewrite config_run. }
  assert (Hres : scripted sleep t0_provider clock arrivals (i :: ids) c
                 = scripted sleep t0_provider clock arrivals ids c3).
  { simpl. rewrite Hst, Hcfg1, Hsleep. done. }
  rewrite Hres. cbv zeta.
  destruct (IH c3) as (Hr & Hcfg & Hout & Hin & Hact);
    [by rewrite Hcfg3|by rewrite Hcfg3|].
  split; [done|]. split; [congruence|].
  assert (Hother : ∀ j, j ≠ i → _trials c3 !! j = _trials c !! j).
  { intros j Hj. subst c3 c2. simpl.
    rewrite (trials_run_other _ c1 i) by done. rewrite Ht1. by rewrite lookup_insert_ne. }
  split; [|split].
  - intros j Hj. apply not_elem_of_cons in Hj as [Hji Hj].
    rewrite Hout by done. by apply Hother.
  - intros j [->|Hj]%elem_of_cons.
    + rewrite Hout by done.
      assert (Hl1 : _trials c1 !! i = Some rec) by (by rewrite Ht1, lookup_insert_eq).
      destruct (record_run_no_start (arrival_calls arrivals i) c1 i rec Hns Hl1)
        as (trial & Hl2 & Hid & Ht0 & Hto).
      exists trial. subst c3 c2. simpl. split; [done|].
      split; [done|]. split; [done|]. split; [done|]. intros dec.
      rewrite <- (pair_state_lookup _ _ _ dec Hl2).
      rewrite (run_pair_state _ c1 i rec) by done.
      by rewrite Hcfg1.
    + destruct (Hin j Hj) as (trial & Hl & Hrest). exists trial.
      split; [done|]. by rewrite <- Hcfg3.
  - rewrite Hact. subst c3 c2. simpl.
    rewrite active_run_no_start, Ha1 by done.
    destruct ids as [|z l]; [done|]. rewrite last_cons_cons.
    destruct (last (z :: l)) eqn:Hlast; [done|]. by apply last_None in Hlast.
Qed.

(** X10: [run_scripted_trials], when the timeout converts to [span] ns
    and [time.sleep] accepts it, returns after running trials
    [1 .. trials] in turn: every such trial is recorded with the start
    its provider gave and the timeout [span] later, the state of each of
    its decoders is the one produced by the detections delivered during
    its own sleep, every other trial id is left as it was, and the last
    trial stays the active one. *)
Theorem run_scripted_trials_records c span :
  int_of_float (timeout_s (config c) * 1e9)%float = Some span →
  sleep (timeout_s (config c)) = Returned () →
  let res := run_scripted_trials sleep t0_provider clock arrivals c in
  let n := trials (config c) in
  res.2 = Returned ()
  ∧ (∀ i, 1 ≤ i ≤ n →
       ∃ trial,
         _trials res.1 !! i = Some trial
         ∧ trial_id trial = i ∧ t0_ns trial = t0_provider i
         ∧ timeout_ns trial = t0_provider i + span
         ∧ ∀ dec, per_decoder trial !! dec =
             detect_all (config c) dec
               (accepted_for dec (t0_provider i) (t0_provider i + span)
                  (arrival_calls arrivals i)) None)
  ∧ (∀ j, ¬ (1 ≤ j ≤ n) → _trials res.1 !! j = _trials c !! j)
  ∧ (1 ≤ n → _active_trial_id res.1 = Some n)
  ∧ (n < 1 → res.1 = c).
Proof.
  intros Hspan Hsleep res n. subst res. unfold run_scripted_trials. fold n.
  destruct (scripted_spec span (seqZ 1 n) c (NoDup_seqZ _ _) Hspan Hsleep)
    as (Hr & _ & Hout & Hin & Hact).
  split; [done|]. split; [|split; [|split]].
  - intros i Hi. apply Hin. apply elem_of_seqZ. lia.
  - intros j Hj. apply Hout. rewrite elem_of_seqZ. lia.
  - intros Hn. rewrite Hact.
    assert (Hseq : seqZ 1 n = seqZ 1 (n - 1) ++ [n]).
    { replace n with ((n - 1) + 1) at 1 by lia. rewrite seqZ_app by lia.
      f_equal. rewrite seqZ_cons by lia. rewrite seqZ_nil by lia. f_equal. lia. }
    by rewrite Hseq, last_snoc.
  - intros Hn. by rewrite seqZ_nil by lia.
Qed.

End ScriptedRun.

Lemma run_scripted_trials_records_witness :
  let sleep := λ _ : float, Returned () in
  let t0_provider := λ i, 1000 * i in
  let clock := λ i, 1000 * i + 900 in
  let arrivals := λ i : Z, [("VISION", 1000 * i + 5, "QR")] in
  let res := Scripted.run_scripted_trials sleep t0_provider clock arrivals
               (Live.new_controller [] default_config) in
  res.2 = Returned ()
  ∧ Live._active_trial_id res.1 = Some 10.
Proof.
  intros sleep t0_provider clock arrivals res.
  destruct (run_scripted_trials_records sleep t0_provider clock arrivals
              (Live.new_controller [] default_config) 3000000000)
    as (Hr & _ & _ & Hact & _); [reflexivity|reflexivity|].
  split; [exact Hr|]. apply Hact. vm_compute. intros; discriminate.
Defined.

(** ** Frames, drops and the executor queue *)

Section VideoSignals.
Import Camera Pipeline.

Lemma signals_snoc sigs sig s : signals (sigs ++ [sig]) s = signal sig (signals sigs s).
Proof. unfold signals. by rewrite foldl_app. Qed.

Lemma frame_rows_snoc first nows now :
  frame_rows first (nows ++ [now]) =
    frame_rows first nows ++ frame_rows (first + Z.of_nat (length nows)) [now].
Proof.
  revert first. induction nows as [|n nows IH]; intros first; simpl.
  - by rewrite Z.add_0_r.
  - rewrite IH.
    replace (first + 1 + Z.of_nat (length nows))
      with (first + Z.of_nat (S (length nows))) by lia.
    done.
Qed.

Lemma frame_times_snoc sigs sig :
  frame_times (sigs ++ [sig]) =
    frame_times sigs ++ match sig with Frame now => [now] | Dropped => [] end.
Proof. unfold frame_times. rewrite omap_app. by destruct sig. Qed.

Lemma drop_count_snoc sigs sig :
  drop_count (sigs ++ [sig]) =
    drop_count sigs + match sig with Frame _ => 0 | Dropped => 1 end.
Proof.
  unfold drop_count. rewrite omap_app, length_app. destruct sig; simpl; lia.
Qed.

(** What any sequence of frames and drops leaves in a new session. *)
Lemma signals_state events throttle parallel sigs :
  let s := signals sigs (new_session events throttle parallel) in
  let n := Z.of_nat (length (frame_times sigs)) in
  throttle_n_frames s = Z.max 1 throttle
  ∧ parallel_decode s = parallel
  ∧ _frame_index s = n
  ∧ frames_received (metrics s) = n
  ∧ frames_processed (metrics s) = 0
  ∧ dropped_frames (metrics s) = 0
  ∧ session_dropped_frames s = drop_count sigs
  ∧ _decode_queue s = []
  ∧ logger s = events ++ frame_rows 1 (frame_times sigs)
  ∧ Z.of_nat (length (_executor s)) = n / Z.max 1 throttle * (if parallel then 2 else 1)
  ∧ Forall (λ t, t = RunDecodeBoth (task_frame t) ↔ parallel = false) (_executor s).
Proof.
  induction sigs as [|sig sigs IH] using rev_ind.
  { simpl. rewrite app_nil_r. repeat split; done. }
  cbv zeta in *. rewrite signals_snoc, frame_times_snoc, drop_count_snoc.
  set (s := signals sigs (new_session events throttle parallel)) in *.
  destruct IH as (HN & Hp & Hi & Hr & Hpr & Hd & Hsd & Hq & Hl & He & Hk).
  destruct sig as [now|]; simpl signal.
  - destruct (on_video_sample_spec now s) as (_ & Hi' & Hl' & Hr' & HN' & Hp' & Hq' & He');
      [lia|].
    rewrite length_app. simpl length.
    assert (Hother : frames_processed (metrics (on_video_sample now s).1) = 0
                     ∧ dropped_frames (metrics (on_video_sample now s).1) = 0
                     ∧ session_dropped_frames (on_video_sample now s).1
                       = session_dropped_frames s).
    { unfold on_video_sample. destruct (py_mod _ _) as [r|]; [|done].
      by destruct (negb _). }
    destruct Hother as (Hpr' & Hd' & Hsd').
    rewrite HN', Hp', Hi', Hr', Hpr', Hd', Hsd', Hq', Hl', HN, Hp, Hi, Hr, Hsd, Hq, Hl.
    split; [done|]. split; [done|]. split; [lia|]. split; [lia|].
    split; [done|]. split; [done|]. split; [lia|]. split; [done|]. split.
    { rewrite frame_rows_snoc, app_assoc. unfold log. simpl. do 4 f_equal. lia. }
    set (n := Z.of_nat (length (frame_times sigs))) in *.
    set (N := Z.max 1 throttle) in *.
    assert (HNpos : 0 < N) by lia.
    pose proof (Z.div_mod n N ltac:(lia)) as Hdm.
    pose proof (Z.mod_pos_bound n N HNpos) as Hmb.
    rewrite He', HN, Hi, Hp. fold N.
    replace (Z.of_nat (length (frame_times sigs) + 1)) with (n + 1) by lia.
    destruct (decide ((n + 1) mod N = 0)) as [Hz|Hnz].
    + assert (Hdiv : (n + 1) / N = n / N + 1).
      { symmetry. apply (Z.div_unique_pos (n + 1) N (n / N + 1) 0); [lia|].
        pose proof (Z.div_mod (n + 1) N ltac:(lia)) as Hdm'. rewrite Hz in Hdm'.
        assert (N * ((n + 1) / N) = N * (n / N) + (n mod N + 1)) by lia.
        assert (Hlt : (n + 1) / N ≤ n / N + 1) by nia.
        assert (Hgt : n / N < (n + 1) / N) by nia.
        nia. }
      split.
      * rewrite length_app, Nat2Z.inj_add, He, Hdiv.
        unfold submissions. destruct parallel; simpl; lia.
      * apply Forall_app. split; [done|].
        unfold submissions. destruct parallel; repeat constructor; simpl; done.
    + assert (Hdiv : (n + 1) / N = n / N).
      { symmetry. apply (Z.div_unique_pos (n + 1) N (n / N) (n mod N + 1)); [|lia].
        split; [lia|].
        destruct (decide (n mod N + 1 = N)) as [Heq|]; [|lia].
        exfalso. apply Hnz.
        replace (n + 1) with (0 + (n / N + 1) * N) by lia.
        by rewrite Z.mod_add by lia. }
      by rewrite Hdiv.
  - simpl. rewrite app_nil_r, HN, Hp, Hi, Hr, Hpr, Hd, Hsd, Hq, Hl.
    repeat split; first [done | lia].
Qed.

(** X11: after any sequence of delivered frames and drop signals on a
    new session, the frame index and [frames_received] both equal the
    number of frames delivered (a drop takes no sequence number), the
    log holds one FRAME_RECEIVED event per frame, numbered 1, 2, ... in
    delivery order, the drops are counted in the session's own
    [dropped_frames] attribute, and [metrics.dropped_frames] is still 0. *)
Theorem frames_and_drops_counted events throttle parallel sigs :
  let s := signals sigs (new_session events throttle parallel) in
  _frame_index s = Z.of_nat (length (frame_times sigs))
  ∧ frames_received (metrics s) = Z.of_nat (length (frame_times sigs))
  ∧ logger s = events ++ frame_rows 1 (frame_times sigs)
  ∧ session_dropped_frames s = drop_count sigs
  ∧ dropped_frames (metrics s) = 0.
Proof.
  destruct (signals_state events throttle parallel sigs)
    as (_ & _ & Hi & Hr & _ & Hd & Hsd & _ & Hl & _).
  done.
Qed.

(** X12: nothing bounds the executor queue: with throttle factor
    [N = max(1, throttle_n_frames)], after [n] delivered frames a new
    session has submitted [n / N] frames' worth of tasks, two per frame
    in parallel mode and one in serial mode, whatever the number of
    drops, and the bounded decode queue is still empty. *)
Theorem executor_queue_grows events throttle parallel sigs :
  let s := signals sigs (new_session events throttle parallel) in
  Z.of_nat (length (_executor s)) =
    Z.of_nat (length (frame_times sigs)) / Z.max 1 throttle
    * (if parallel then 2 else 1)
  ∧ _decode_queue s = [].
Proof.
  destruct (signals_state events throttle parallel sigs)
    as (_ & _ & _ & _ & _ & _ & _ & Hq & _ & He & _).
  done.
Qed.

End VideoSignals.

(** ** The callbacks and the trial engine *)

Section Callbacks.
Import Camera Pipeline LiveTraces PipelineTraces.

Lemma same_engine_refl c : same_engine c c.
Proof. done. Qed.

Lemma same_engine_trans c1 c2 c3 :
  same_engine c1 c2 → same_engine c2 c3 → same_engine c1 c3.
Proof. intros (? & ? & ?) (? & ? & ?). repeat split; congruence. Qed.

Lemma same_engine_accepting c c' ts :
  same_engine c c' → accepting c ts = accepting c' ts.
Proof. intros (Ht & Ha & _). unfold accepting. by rewrite Ht, Ha. Qed.

(** [on_detection] reads the log of its controller nowhere. *)
Lemma on_detection_same_engine dec ts p c c' :
  same_engine c c' →
  same_engine (Live.on_detection dec ts p c).1 (Live.on_detection dec ts p c').1
  ∧ (Live.on_detection dec ts p c).2 = (Live.on_detection dec ts p c').2.
Proof.
  intros (Ht & Ha & Hc). unfold Live.on_detection. rewrite Ht, Ha, Hc.
  destruct (Live._active_trial_id c') as [tid|] eqn:Ha';
    [|repeat split; simpl; congruence].
  destruct (Live._trials c' !! tid) as [trial|]; [|repeat split; simpl; congruence].
  destruct (_ || _); [repeat split; simpl; congruence|].
  destruct (Live.detect _ _ _ _ _) as [st' [[]|]]; repeat split; simpl; congruence.
Qed.

Lemma same_engine_step call c c' :
  same_engine c c' → same_engine (Live.step call c) (Live.step call c').
Proof.
  intros Hs. destruct call as [tid t0|now tid|dec ts p]; simpl.
  - destruct Hs as (Ht & Ha & Hc). unfold Live.start_trial. rewrite Hc.
    destruct (int_of_float _); repeat split; simpl; congruence.
  - done.
  - by apply on_detection_same_engine.
Qed.

Lemma same_engine_run calls c c' :
  same_engine c c' → same_engine (Live.run calls c) (Live.run calls c').
Proof.
  revert c c'. induction calls as [|call calls IH]; intros c c' Hs; [done|].
  unfold Live.run in *. simpl. by apply IH, same_engine_step.
Qed.

Lemma on_detection_returns dec ts p c w :
  int_of_float (confirmation_window_ms (Live.config c) * 1e6)%float = Some w →
  (Live.on_detection dec ts p c).2 = Returned ().
Proof.
  intros Hw. unfold Live.on_detection.
  destruct (Live._active_trial_id c) as [tid|]; [|done].
  destruct (Live._trials c !! tid) as [trial|]; [|done].
  destruct (_ || _); [done|].
  unfold Live.detect. by rewrite Hw.
Qed.

Lemma on_detection_logger dec ts p c w :
  int_of_float (confirmation_window_ms (Live.config c) * 1e6)%float = Some w →
  Live.logger (Live.on_detection dec ts p c).1 =
    Live.logger c
    ++ match accepting c ts with
       | Some (tid, _) => log ts "live" (Some tid) dec "PAYLOAD_DETECTED" None (Some p) []
       | None => []
       end.
Proof.
  intros Hw. unfold Live.on_detection, accepting.
  destruct (Live._active_trial_id c) as [tid|]; simpl; [|by rewrite app_nil_r].
  destruct (Live._trials c !! tid) as [trial|]; simpl; [|by rewrite app_nil_r].
  destruct (_ || _); [by rewrite app_nil_r|].
  unfold Live.detect. by rewrite Hw.
Qed.


Lemma decoder_event_spec dec ts p fidx conv dms a w :
  int_of_float (confirmation_window_ms (Live.config (live_controller a)) * 1e6)%float
    = Some w →
  let res := _decoder_event dec ts p fidx conv dms a in
  res.2 = Returned ()
  ∧ same_engine (live_controller res.1) (Live.on_detection dec ts p (live_controller a)).1
  ∧ camera res.1 = camera a
  ∧ app_logger res.1 =
      app_logger a
      ++ match accepting (live_controller a) ts with
         | Some (tid, _) => log ts "live" (Some tid) dec "PAYLOAD_DETECTED" None (Some p) []
         | None => []
         end.
Proof.
  intros Hw. unfold _decoder_event.
  set (c := Live.set_logger (app_logger a) (live_controller a)).
  assert (Hs : same_engine c (live_controller a)) by done.
  destruct (on_detection_same_engine dec ts p _ _ Hs) as [Hs' Hr'].
  pose proof (on_detection_returns dec ts p c w Hw) as Hr.
  pose proof (on_detection_logger dec ts p c w Hw) as Hl.
  rewrite (same_engine_accepting _ _ ts Hs) in Hl.
  destruct (Live.on_detection dec ts p c) as [c' r]. simpl in *.
  by rewrite Hl.
Qed.





(** X14: a backend that raises is not caught.  [run_decode] then ends
    by raising, having logged DECODE_START only: no DECODE_END row, the
    frame is not counted as processed and the trial engine is not
    called.  In serial mode the VISION failure ends the whole task, so
    ZXING is not run on that frame at all. *)
Theorem decode_failure_effects name frame_idx r a zxing :
  decoded r = Raised →
  let res := run_decode name frame_idx r a in
  res.2 = Raised
  ∧ live_controller res.1 = live_controller a
  ∧ camera res.1 = camera a
  ∧ app_logger res.1 =
      log (start_ns r) "live" None name "DECODE_START" (Some frame_idx) None (app_logger a)
  ∧ run_task (RunDecodeBoth frame_idx) r zxing a = run_decode "VISION" frame_idx r a.
Proof.
  intros Hr. unfold run_task, run_decode. rewrite Hr. done.
Qed.

Lemma decode_failure_effects_witness :
  let a := {| app_logger := []; live_controller := trial1;
              camera := new_session [] 1 false |} in
  let r := {| start_ns := 5; decoded := Raised; end_ns := 6 |} in
  let zxing := {| start_ns := 7;
                  decoded := Returned {| payload := Some "QR"; dr_conversion_ms := None;
                                         decode_ms := 1%float |};
                  end_ns := 8 |} in
  let res := run_decode "VISION" 1 r a in
  res.2 = Raised
  ∧ live_controller res.1 = live_controller a
  ∧ camera res.1 = camera a
  ∧ app_logger res.1 = log 5 "live" None "VISION" "DECODE_START" (Some 1) None []
  ∧ run_task (RunDecodeBoth 1) r zxing a = run_decode "VISION" 1 r a.
Proof.
  intros a r zxing. apply (decode_failure_effects "VISION" 1 r a zxing). reflexivity.
Defined.

Lemma run_decode_returns name frame_idx r a w :
  int_of_float (confirmation_window_ms (Live.config (live_controller a)) * 1e6)%float
    = Some w →
  returns r = true →
  let res := run_decode name frame_idx r a in
  res.2 = Returned ()
  ∧ same_engine (live_controller res.1)
      (Live.run (decode_calls name r) (live_controller a))
  ∧ camera res.1 = count_processed (camera a).
Proof.
  intros Hw Hret. unfold run_decode, decode_calls, returns in *.
  destruct (decoded r) as [result|]; [|done].
  destruct (nonempty (payload result)) as [p|]; [|done].
  set (a2 := {| app_logger := _; live_controller := _; camera := _ |}).
  destruct (decoder_event_spec name (end_ns r) p (Some frame_idx)
              (dr_conversion_ms result) (Some (decode_ms result)) a2 w Hw)
    as (Hr & Hs & Hcam & _).
  done.
Qed.

Lemma run_task_returns job a w :
  int_of_float (confirmation_window_ms (Live.config (live_controller a)) * 1e6)%float
    = Some w →
  job_returns job = true →
  let res := run_task job.1.1 job.1.2 job.2 a in
  res.2 = Returned ()
  ∧ same_engine (live_controller res.1) (Live.run (task_calls job) (live_controller a))
  ∧ Live.config (live_controller res.1) = Live.config (live_controller a)
  ∧ frames_processed (metrics (camera res.1)) =
      frames_processed (metrics (camera a)) + task_decodes job.1.1
  ∧ frames_received (metrics (camera res.1)) = frames_received (metrics (camera a))
  ∧ _frame_index (camera res.1) = _frame_index (camera a)
  ∧ _executor (camera res.1) = _executor (camera a).
Proof.
  destruct job as [[t vision] zxing]. unfold job_returns, task_calls. simpl.
  intros Hw Hret. destruct t as [name idx|idx]; simpl.
  - destruct (run_decode_returns name idx
                (if bool_decide (name = "VISION") then vision else zxing) a w Hw Hret)
      as (Hr & Hs & Hcam).
    rewrite Hcam. split; [done|]. split; [done|]. split; [|done].
    destruct Hs as (_ & _ & ->). apply config_run.
  - apply andb_prop in Hret as [Hv Hz].
    destruct (run_decode_returns "VISION" idx vision a w Hw Hv) as (Hr & Hs & Hcam).
    destruct (run_decode "VISION" idx vision a) as [a' r]. simpl in *. subst r.
    assert (Hcfg : Live.config (live_controller a') = Live.config (live_controller a)).
    { destruct Hs as (_ & _ & ->). apply config_run. }
    destruct (run_decode_returns "ZXING" idx zxing a' w) as (Hr' & Hs' & Hcam');
      [by rewrite Hcfg|done|].
    rewrite Hcam', Hcam. split; [done|]. split; [|split].
    + eapply same_engine_trans; [exact Hs'|].
      unfold Live.run. rewrite foldl_app. by apply same_engine_run.
    + destruct Hs' as (_ & _ & ->). by rewrite config_run.
    + simpl. repeat split. lia.
Qed.

Lemma dequeue_Some t queue queue' :
  dequeue t queue = Some queue' → queue ≡ₚ t :: queue'.
Proof.
  revert queue'. induction queue as [|t' queue IH]; intros queue'; simpl; [done|].
  destruct (decide (t' = t)) as [->|Hne]; [by intros [= ->]|].
  destruct (dequeue t queue) as [rest|]; simpl; [|done].
  intros [= <-]. rewrite (IH rest eq_refl). apply Permutation_swap.
Qed.

Lemma dequeue_elem t queue : t ∈ queue → is_Some (dequeue t queue).
Proof.
  induction queue as [|t' queue IH]; simpl; [by intros ?%not_elem_of_nil|].
  destruct (decide (t' = t)) as [->|Hne]; [by eexists|].
  intros [?|Hin]%elem_of_cons; [congruence|].
  destruct (IH Hin) as [rest ->]. by eexists.
Qed.

Lemma dequeue_None t queue : t ∉ queue → dequeue t queue = None.
Proof.
  intros Hnot. destruct (dequeue t queue) as [rest|] eqn:Hd; [|done].
  apply dequeue_Some in Hd. exfalso. apply Hnot. rewrite Hd. apply list_elem_of_here.
Qed.

(** What the completion of queued tasks does, when no backend raises. *)
Lemma run_tasks_spec jobs a w :
  int_of_float (confirmation_window_ms (Live.config (live_controller a)) * 1e6)%float
    = Some w →
  Forall (λ job, job_returns job = true) jobs →
  jobs.*1.*1 ⊆+ _executor (camera a) →
  let a' := run_tasks jobs a in
  same_engine (live_controller a') (Live.run (jobs ≫= task_calls) (live_controller a))
  ∧ frames_processed (metrics (camera a')) =
      frames_processed (metrics (camera a)) + total_decodes (jobs.*1.*1)
  ∧ frames_received (metrics (camera a')) = frames_received (metrics (camera a))
  ∧ _frame_index (camera a') = _frame_index (camera a)
  ∧ _executor (camera a) ≡ₚ jobs.*1.*1 ++ _executor (camera a').
Proof.
  intros Hw Hjobs. revert a Hw.
  induction Hjobs as [|job jobs Hjob _ IH]; intros a Hw Hsub.
  { simpl. repeat split; (done || lia). }
  destruct job as [[t vision] zxing]. rewrite !fmap_cons in Hsub. simpl in Hsub.
  apply submseteq_cons_l in Hsub as (rest & Hperm & Hsub).
  destruct (dequeue_elem t (_executor (camera a))) as [queue Hq].
  { rewrite Hperm. apply list_elem_of_here. }
  assert (Hrest : rest ≡ₚ queue).
  { apply dequeue_Some in Hq. rewrite Hperm in Hq. by apply (inj (cons t)) in Hq. }
  cbv zeta. simpl run_tasks. unfold take_task. rewrite Hq.
  set (a0 := {| app_logger := app_logger a; live_controller := live_controller a;
                camera := _ |}).
  destruct (run_task_returns (t, vision, zxing) a0 w Hw Hjob)
    as (_ & Hs & Hcfg & Hp & Hr & Hi & He).
  simpl in Hs, Hcfg, Hp, Hr, Hi, He.
  destruct (IH (run_task t vision zxing a0).1) as (Hs' & Hp' & Hr' & Hi' & He');
    [by rewrite Hcfg|by rewrite He, <- Hrest|].
  split; [|split; [|split; [|split]]].
  - eapply same_engine_trans; [exact Hs'|].
    rewrite bind_cons. unfold Live.run. rewrite foldl_app. by apply same_engine_run.
  - rewrite Hp', Hp. unfold total_decodes. rewrite !fmap_cons. simpl foldr. lia.
  - congruence.
  - congruence.
  - rewrite !fmap_cons. simpl. rewrite <- He'. rewrite He. simpl.
    by apply dequeue_Some.
Qed.

(** X15: the queued tasks that the workers of the pool take and
    complete, one after the other in any order, when no backend raises
    and the confirmation window converts to nanoseconds.  The trial
    engine ends as if it had received exactly the non-empty payloads as
    detections, each stamped with the clock read taken at the end of its
    decode, in completion order (VISION before ZXING inside a serial
    task).  [frames_processed] grows by one per backend run, payload or
    not, and the frame counters are left alone.  Each completed task has
    left the work queue, the other queued tasks are still there; and a
    task that is not in the queue is not run at all. *)
Theorem tasks_feed_engine jobs a w :
  int_of_float (confirmation_window_ms (Live.config (live_controller a)) * 1e6)%float
    = Some w →
  Forall (λ job, job_returns job = true) jobs →
  jobs.*1.*1 ⊆+ _executor (camera a) →
  let a' := run_tasks jobs a in
  same_engine (live_controller a') (Live.run (jobs ≫= task_calls) (live_controller a))
  ∧ frames_processed (metrics (camera a')) =
      frames_processed (metrics (camera a)) + total_decodes (jobs.*1.*1)
  ∧ frames_received (metrics (camera a')) = frames_received (metrics (camera a))
  ∧ _frame_index (camera a') = _frame_index (camera a)
  ∧ _executor (camera a) ≡ₚ jobs.*1.*1 ++ _executor (camera a')
  ∧ (length (_executor (camera a')) + length jobs = length (_executor (camera a)))%nat
  ∧ ∀ t vision zxing, t ∉ _executor (camera a) → run_tasks [(t, vision, zxing)] a = a.
Proof.
  intros Hw Hjobs Hsub.
  destruct (run_tasks_spec jobs a w Hw Hjobs Hsub) as (Hs & Hp & Hr & Hi & He).
  cbv zeta. do 5 (split; [done|]). split.
  - rewrite He, length_app, !length_fmap. lia.
  - intros t vision zxing Hnot. simpl. unfold take_task.
    by rewrite dequeue_None.
Qed.

Lemma tasks_feed_engine_witness :
  let a := {| app_logger := []; live_controller := trial1;
              camera := signals [Frame 10] (new_session [] 1 true) |} in
  let hit := {| start_ns := 5;
                decoded := Returned {| payload := Some "QR"; dr_conversion_ms := None;
                                       decode_ms := 1%float |};
                end_ns := 9 |} in
  let miss := {| start_ns := 6;
                 decoded := Returned {| payload := None; dr_conversion_ms := None;
                                        decode_ms := 1%float |};
                 end_ns := 8 |} in
  let jobs := [(RunDecode "ZXING" 1, miss, hit); (RunDecode "VISION" 1, miss, hit)] in
  let a' := run_tasks jobs a in
  same_engine (live_controller a') (Live.run [Live.OnDetection "ZXING" 9 "QR"] trial1)
  ∧ frames_processed (metrics (camera a')) = 0 + 2
  ∧ frames_received (metrics (camera a')) = 1
  ∧ _frame_index (camera a') = 1
  ∧ [RunDecode "VISION" 1; RunDecode "ZXING" 1]
    ≡ₚ [RunDecode "ZXING" 1; RunDecode "VISION" 1] ++ _executor (camera a')
  ∧ (length (_executor (camera a')) + 2 = 2)%nat
  ∧ ∀ t vision zxing, t ∉ _executor (camera a) → run_tasks [(t, vision, zxing)] a = a.
Proof.
  intros a hit miss jobs.
  apply (tasks_feed_engine jobs a 500000000); [reflexivity|repeat constructor|].
  apply Permutation_submseteq. vm_compute. apply Permutation_swap.
Defined.

Lemma total_decodes_perm l l' : l ≡ₚ l' → total_decodes l = total_decodes l'.
Proof.
  unfold total_decodes. induction 1; simpl; lia.
Qed.

Lemma total_decodes_uniform parallel l :
  Forall (λ t, t = RunDecodeBoth (task_frame t) ↔ parallel = false) l →
  total_decodes l * (if parallel then 2 else 1) = 2 * Z.of_nat (length l).
Proof.
  unfold total_decodes. induction 1 as [|t l Ht _ IH]; [by destruct parallel|].
  simpl foldr. simpl length. rewrite Nat2Z.inj_succ.
  destruct t as [name i|i], parallel; simpl in *; try lia.
  - destruct Ht as [_ Ht]. by specialize (Ht eq_refl).
  - destruct Ht as [Ht _]. by specialize (Ht eq_refl).
Qed.

(** X16: [frames_processed] counts backend runs, not frames.  Once the
    tasks submitted for [n] delivered frames have all completed without
    a backend raising, in whatever order, [frames_processed] is
    [2 * (n / N)] in parallel and in serial mode alike, [N] being
    [max(1, throttle_n_frames)], while [frames_received] is [n]. *)
Theorem processed_counts_backend_runs events throttle parallel sigs jobs a w :
  camera a = signals sigs (new_session events throttle parallel) →
  jobs.*1.*1 ≡ₚ _executor (camera a) →
  int_of_float (confirmation_window_ms (Live.config (live_controller a)) * 1e6)%float
    = Some w →
  Forall (λ job, job_returns job = true) jobs →
  let n := Z.of_nat (length (frame_times sigs)) in
  frames_processed (metrics (camera (run_tasks jobs a))) = 2 * (n / Z.max 1 throttle)
  ∧ frames_received (metrics (camera (run_tasks jobs a))) = n.
Proof.
  intros Hcam Hperm Hw Hjobs n.
  destruct (run_tasks_spec jobs a w Hw Hjobs (Permutation_submseteq _ _ Hperm))
    as (_ & Hp & Hr & _).
  destruct (signals_state events throttle parallel sigs)
    as (_ & _ & _ & Hrecv & Hproc & _ & _ & _ & _ & Hlen & Hkind).
  cbv zeta in *. rewrite <- Hcam in Hrecv, Hproc, Hlen, Hkind.
  rewrite Hp, Hr, Hproc, Hrecv. split; [|done].
  rewrite (total_decodes_perm _ _ Hperm).
  pose proof (total_decodes_uniform parallel _ Hkind) as Htot.
  fold n in Hlen. destruct parallel; nia.
Qed.

Lemma processed_counts_backend_runs_witness :
  let a := {| app_logger := []; live_controller := trial1;
              camera := signals [Frame 10; Dropped; Frame 20] (new_session [] 1 false) |} in
  let hit := {| start_ns := 5;
                decoded := Returned {| payload := Some "QR"; dr_conversion_ms := None;
                                       decode_ms := 1%float |};
                end_ns := 9 |} in
  let jobs := [(RunDecodeBoth 2, hit, hit); (RunDecodeBoth 1, hit, hit)] in
  frames_processed (metrics (camera (run_tasks jobs a))) = 2 * (2 / Z.max 1 1)
  ∧ frames_received (metrics (camera (run_tasks jobs a))) = 2.
Proof.
  intros a hit jobs.
  apply (processed_counts_backend_runs [] 1 false [Frame 10; Dropped; Frame 20] jobs a
           500000000); [reflexivity| |reflexivity|repeat constructor].
  vm_compute. apply Permutation_swap.
Defined.

End Callbacks.

(** ** The header of an export *)

Section ExportHeader.
Import LoggerExport.

Lemma first_occurrences_snoc l x :
  first_occurrences (l ++ [x]) =
    if decide (x ∈ l) then first_occurrences l else first_occurrences l ++ [x].
Proof.
  unfold first_occurrences. rewrite reverse_snoc. simpl.
  destruct (decide_rel elem_of x (reverse l)) as [Hin|Hin];
    rewrite elem_of_reverse in Hin.
  - by rewrite decide_True.
  - rewrite decide_False by done. by rewrite reverse_cons.
Qed.

Lemma add_row_spec l row :
  add_row (first_occurrences l, list_to_set l) row =
    (first_occurrences (l ++ row), list_to_set (l ++ row)).
Proof.
  revert l. induction row as [|x row IH]; intros l; simpl.
  { by rewrite app_nil_r. }
  replace (l ++ x :: row) with ((l ++ [x]) ++ row) by (by rewrite <- app_assoc).
  rewrite <- IH. f_equal. unfold add_key. simpl.
  rewrite first_occurrences_snoc, list_to_set_app_L. simpl.
  destruct (decide (x ∈ l)) as [Hin|Hin].
  - assert (Hs : x ∈ (list_to_set l : gset string)) by (by apply elem_of_list_to_set).
    rewrite decide_True by done. f_equal.
    apply set_eq. intros y. rewrite elem_of_union, elem_of_union, elem_of_singleton.
    rewrite elem_of_empty. split; [by left|]. intros [?|[->|[]]]; done.
  - assert (Hs : x ∉ (list_to_set l : gset string)) by (by rewrite elem_of_list_to_set).
    rewrite decide_False by done. f_equal.
    apply set_eq. intros y. rewrite !elem_of_union, elem_of_singleton, elem_of_empty.
    tauto.
Qed.

Lemma add_rows_spec l rows :
  foldl add_row (first_occurrences l, list_to_set l) rows =
    (first_occurrences (l ++ concat rows), list_to_set (l ++ concat rows)).
Proof.
  revert l. induction rows as [|row rows IH]; intros l; simpl.
  { by rewrite app_nil_r. }
  by rewrite add_row_spec, IH, app_assoc.
Qed.

Lemma first_occurrences_NoDup keys : NoDup keys → first_occurrences keys = keys.
Proof.
  induction keys as [|k keys IH] using rev_ind; intros Hnd; [done|].
  apply NoDup_app in Hnd as (Hnd & Hk & _).
  rewrite first_occurrences_snoc, decide_False, IH; [done|done|].
  intros Hin. apply (Hk k Hin). apply list_elem_of_here.
Qed.

Lemma first_occurrences_absorb keys rest :
  (∀ x, x ∈ rest → x ∈ keys) →
  first_occurrences (keys ++ rest) = first_occurrences keys.
Proof.
  induction rest as [|x rest IH] using rev_ind; intros Hsub.
  { by rewrite app_nil_r. }
  rewrite app_assoc, first_occurrences_snoc, decide_True.
  - apply IH. intros y Hy. apply Hsub, elem_of_app. by left.
  - apply elem_of_app. left. apply Hsub, elem_of_app. right. apply list_elem_of_here.
Qed.

(** X17: the header [export_csv] builds holds every key of every row
    exactly once, in the order in which the keys first appear, so no row
    has a key outside the header; rows that all have the same distinct
    keys get exactly those keys as header, and no rows give an empty
    header. *)
Theorem export_csv_header rows :
  export_csv_keys rows = first_occurrences (concat rows)
  ∧ NoDup (export_csv_keys rows)
  ∧ (∀ key, key ∈ export_csv_keys rows ↔ ∃ row, row ∈ rows ∧ key ∈ row)
  ∧ (∀ keys, rows ≠ [] → NoDup keys → Forall (λ row, row = keys) rows →
       export_csv_keys rows = keys).
Proof.
  assert (Hkeys : export_csv_keys rows = first_occurrences (concat rows)).
  { unfold export_csv_keys. destruct rows as [|row rows]; [done|].
    change ([] : list string, ∅ : gset string)
      with (first_occurrences [], list_to_set [] : gset string).
    by rewrite add_rows_spec. }
  assert (Hin : ∀ key, key ∈ concat rows ↔ ∃ row, row ∈ rows ∧ key ∈ row).
  { clear. intros key. induction rows as [|row rows IH]; simpl.
    - split; [by intros ?%not_elem_of_nil|]. by intros (? & ?%not_elem_of_nil & _).
    - rewrite elem_of_app, IH. split.
      + intros [Hk|(r & Hr & Hk)].
        * exists row. split; [apply list_elem_of_here|done].
        * exists r. split; [by apply list_elem_of_further|done].
      + intros (r & [->|Hr]%elem_of_cons & Hk); [by left|]. right. by exists r. }
  rewrite Hkeys. split; [done|]. split; [|split].
  - unfold first_occurrences. rewrite reverse_Permutation. apply NoDup_remove_dups.
  - intros key. unfold first_occurrences.
    by rewrite elem_of_reverse, elem_of_remove_dups, elem_of_reverse.
  - intros keys Hne Hnd Hall. destruct rows as [|row rows]; [done|].
    apply Forall_cons in Hall as [-> Hall]. simpl.
    rewrite first_occurrences_absorb; [by apply first_occurrences_NoDup|].
    intros x Hx. clear -Hall Hx.
    induction Hall as [|row rows -> _ IH]; simpl in Hx.
    + by apply not_elem_of_nil in Hx.
    + apply elem_of_app in Hx as [Hx|Hx]; [done|by apply IH].
Qed.

Lemma export_csv_header_witness :
  export_csv_keys [["trial_id"; "decoder"; "success"]; ["trial_id"; "decoder"; "success"]]
  = ["trial_id"; "decoder"; "success"].
Proof.
  apply (proj2 (proj2 (proj2 (export_csv_header
           [["trial_id"; "decoder"; "success"]; ["trial_id"; "decoder"; "success"]])))).
  - intros; discriminate.
  - apply NoDup_ListNoDup. repeat constructor; simpl; intuition discriminate.
  - repeat constructor.
Defined.

End ExportHeader.

(** ** The fade script *)

Section StimulusScript.
Import Stimulus.

Local Arguments int_truediv : simpl never.
Local Arguments min_one : simpl never.
Local Arguments seconds : simpl never.
Local Arguments fade_interval : simpl never.
Local Arguments trial_payload : simpl never.

Variable clock : Z → Z.
Variable cfg : StimulusConfig.
Variables iv hs gs : float.
Hypothesis Hfade : fade_interval cfg = Some iv.
Hypothesis Hhold : seconds (hold_duration_ms cfg) = Some hs.
Hypothesis Hgap : seconds (gap_duration_ms cfg) = Some gs.

Lemma alpha_table :
  forallb (λ i, match int_truediv i steps with Some _ => true | None => false end)
    (seqZ 0 31) = true.
Proof. vm_compute. reflexivity. Qed.

Lemma alpha_defined idx : 0 ≤ idx ≤ 30 → is_Some (int_truediv idx steps).
Proof.
  intros Hi. pose proof alpha_table as Htab. rewrite forallb_forall in Htab.
  specialize (Htab idx). destruct (int_truediv idx steps); [by eexists|].
  exfalso. apply Bool.diff_false_true, Htab, list_elem_of_In, elem_of_seqZ. lia.
Qed.

Lemma alpha_full : int_truediv 30 steps = Some 1%float ∧ min_one 1 = 1%float.
Proof. split; vm_compute; reflexivity. Qed.

(** The fade timers [idx .. 30] of a trial, down to the hold timer. *)
Lemma fade_chain (m : nat) idx ci s :
  idx = 30 - Z.of_nat m → 0 ≤ idx →
  stim_config s = cfg →
  timers s = [ {| interval_s := iv; selector := FadeStep idx ci |} ] →
  fires clock (S m) s =
    {| stim_config := cfg; current_trial := current_trial s;
       view := {| alpha_value := 1; ci_image := Some ci |};
       timers := [ {| interval_s := hs; selector := HoldDone |} ];
       callbacks := callbacks s |}.
Proof.
  revert idx s. induction m as [|m IH]; intros idx s Hidx Hpos Hcfg Htimers.
  - assert (idx = 30) as -> by (simpl in Hidx; lia). clear Hidx Hpos.
    simpl. unfold fire. rewrite Htimers. simpl.
    unfold _fadeStep_. simpl. rewrite Hcfg, Hfade. unfold fade_step.
    destruct alpha_full as [-> ->]. simpl. by rewrite Hhold.
  - change (fires clock (S (S m)) s) with (fires clock (S m) (fire clock s).1).
    destruct (alpha_defined idx) as [q Hq]; [lia|].
    assert (Hfire : (fire clock s).1 =
              {| stim_config := cfg; current_trial := current_trial s;
                 view := {| alpha_value := min_one q; ci_image := Some ci |};
                 timers := [ {| interval_s := iv; selector := FadeStep (idx + 1) ci |} ];
                 callbacks := callbacks s |}).
    { unfold fire. rewrite Htimers. simpl. unfold _fadeStep_. simpl.
      rewrite Hcfg, Hfade. unfold fade_step. rewrite Hq.
      destruct (Z.ltb_spec idx steps) as [_|Hge]; [|unfold steps in Hge; lia].
      done. }
    rewrite Hfire. rewrite (IH (idx + 1)); [done|lia|lia|done|done].
Qed.

(** One trial: the callback, the fade, the hold and the gap. *)
Lemma trial_cycle s :
  stim_config s = cfg → timers s = [] →
  current_trial s < stim_trials cfg →
  let n := current_trial s + 1 in
  let event := {| ev_trial_id := n; ev_t0_ns := clock n;
                  ev_payload := trial_payload cfg n |} in
  let s1 := (_run_next_trial clock s).1 in
  callbacks s1 = callbacks s ++ [event]
  ∧ fires clock 30 s1 =
      {| stim_config := cfg; current_trial := n;
         view := {| alpha_value := 1; ci_image := Some (trial_payload cfg n) |};
         timers := [ {| interval_s := hs; selector := HoldDone |} ];
         callbacks := callbacks s ++ [event] |}
  ∧ fires clock 32 s1 =
      (_run_next_trial clock
         {| stim_config := cfg; current_trial := n;
            view := {| alpha_value := 0; ci_image := None |};
            timers := []; callbacks := callbacks s ++ [event] |}).1.
Proof.
  intros Hcfg Htimers Hlt n event s1.
  destruct (alpha_defined 0) as [q0 Hq0]; [lia|].
  assert (Hs1 : s1 =
            {| stim_config := cfg; current_trial := n;
               view := {| alpha_value := min_one q0;
                          ci_image := Some (trial_payload cfg n) |};
               timers := [ {| interval_s := iv;
                              selector := FadeStep 1 (trial_payload cfg n) |} ];
               callbacks := callbacks s ++ [event] |}).
  { subst s1. unfold _run_next_trial. rewrite Hcfg.
    destruct (Z.leb_spec (stim_trials cfg) (current_trial s)) as [|_]; [lia|].
    rewrite Hfade. unfold fade_step. rewrite Hq0. simpl. by rewrite Htimers. }
  assert (H30 : fires clock 30 s1 =
            {| stim_config := cfg; current_trial := n;
               view := {| alpha_value := 1; ci_image := Some (trial_payload cfg n) |};
               timers := [ {| interval_s := hs; selector := HoldDone |} ];
               callbacks := callbacks s ++ [event] |}).
  { rewrite Hs1. by rewrite (fade_chain 29 1 (trial_payload cfg n)). }
  split; [by rewrite Hs1|]. split; [done|].
  change 32%nat with (30 + 2)%nat.
  assert (Hadd : ∀ a b x, fires clock (a + b) x = fires clock b (fires clock a x)).
  { induction a as [|a IHa]; intros b x; [done|]. simpl. apply IHa. }
  rewrite Hadd, H30. simpl. unfold fire at 2. simpl. unfold _holdDone_. simpl.
  rewrite Hgap. simpl. unfold fire. simpl. done.
Qed.

Lemma fires_add a b x : fires clock (a + b) x = fires clock b (fires clock a x).
Proof. revert x. induction a as [|a IHa]; intros x; [done|]. simpl. apply IHa. Qed.

(** The remaining [k] trials of a script. *)
Lemma script_rest (k : nat) s :
  stim_config s = cfg → timers s = [] →
  current_trial s + Z.of_nat k = Z.max (current_trial s) (stim_trials cfg) →
  fires clock (32 * k) (_run_next_trial clock s).1 =
    {| stim_config := cfg; current_trial := current_trial s + Z.of_nat k;
       view := {| alpha_value := 0; ci_image := None |};
       timers := [];
       callbacks := callbacks s ++ trial_events clock cfg (current_trial s + 1) k |}.
Proof.
  revert s. induction k as [|k IH]; intros s Hcfg Htimers Hk.
  - simpl. unfold _run_next_trial. rewrite Hcfg.
    destruct (Z.leb_spec (stim_trials cfg) (current_trial s)) as [_|]; [|lia].
    simpl. rewrite app_nil_r, Z.add_0_r. unfold set_ciimage_alpha_.
    by rewrite Hcfg, Htimers.
  - assert (Hlt : current_trial s < stim_trials cfg) by lia.
    destruct (trial_cycle s Hcfg Htimers Hlt) as (_ & _ & H32).
    replace (32 * S k)%nat with (32 + 32 * k)%nat by lia.
    rewrite fires_add, H32, IH; [|done|done|cbn [current_trial]; lia].
    cbn [current_trial callbacks trial_events]. rewrite <- app_assoc.
    f_equal. lia.
Qed.

(** The first [j + 1] trials of a script, up to the start of the next. *)
Lemma script_progress (j : nat) s :
  stim_config s = cfg → timers s = [] →
  current_trial s + Z.of_nat (S j) ≤ stim_trials cfg →
  fires clock (32 * S j) (_run_next_trial clock s).1 =
    (_run_next_trial clock
       {| stim_config := cfg; current_trial := current_trial s + Z.of_nat (S j);
          view := {| alpha_value := 0; ci_image := None |};
          timers := [];
          callbacks := callbacks s
                       ++ trial_events clock cfg (current_trial s + 1) (S j) |}).1.
Proof.
  revert s. induction j as [|j IH]; intros s Hcfg Htimers Hle.
  - assert (Hlt : current_trial s < stim_trials cfg) by lia.
    destruct (trial_cycle s Hcfg Htimers Hlt) as (_ & _ & H32).
    change (32 * 1)%nat with 32%nat. by rewrite H32.
  - assert (Hlt : current_trial s < stim_trials cfg) by lia.
    destruct (trial_cycle s Hcfg Htimers Hlt) as (_ & _ & H32).
    replace (32 * S (S j))%nat with (32 + 32 * S j)%nat by lia.
    rewrite fires_add, H32, IH; [|done|done|cbn [current_trial]; lia].
    cbn [current_trial callbacks].
    change (trial_events clock cfg (current_trial s + 1) (S (S j)))
      with ({| ev_trial_id := current_trial s + 1;
               ev_t0_ns := clock (current_trial s + 1);
               ev_payload := trial_payload cfg (current_trial s + 1) |}
            :: trial_events clock cfg (current_trial s + 1 + 1) (S j)).
    rewrite <- app_assoc. do 3 f_equal. lia.
Qed.

End StimulusScript.

(** X19: the fade script, when the three durations convert to seconds.
    Started on a controller without pending timers, with [n] trials
    configured, it calls the trial callback for trials 1, 2, ..., [n] in
    order, once each, with the payload [<base>-trial-<i>]; each trial
    takes 32 timers (30 fade steps, the hold, the gap); when the hold
    timer of a trial is pending the view shows that trial's code at
    alpha exactly 1.0; and after the last gap no timer is left, the view
    is cleared and [current_trial] is [n]. *)
Theorem fade_script_runs_trials clock cfg iv hs gs s :
  Stimulus.fade_interval cfg = Some iv →
  Stimulus.seconds (Stimulus.hold_duration_ms cfg) = Some hs →
  Stimulus.seconds (Stimulus.gap_duration_ms cfg) = Some gs →
  Stimulus.stim_config s = cfg → Stimulus.timers s = [] →
  let n := Z.max 0 (Stimulus.stim_trials cfg) in
  let started := (Stimulus.run_fade_trials clock s).1 in
  Stimulus.fires clock (32 * Z.to_nat n) started =
    {| Stimulus.stim_config := cfg; Stimulus.current_trial := n;
       Stimulus.view := {| Stimulus.alpha_value := 0; Stimulus.ci_image := None |};
       Stimulus.timers := [];
       Stimulus.callbacks :=
         Stimulus.callbacks s ++ Stimulus.trial_events clock cfg 1 (Z.to_nat n) |}
  ∧ ∀ i, 1 ≤ i ≤ n →
      let mid := Stimulus.fires clock (32 * Z.to_nat (i - 1) + 30) started in
      Stimulus.view mid =
        {| Stimulus.alpha_value := 1;
           Stimulus.ci_image := Some (Stimulus.trial_payload cfg i) |}
      ∧ Stimulus.timers mid =
          [ {| Stimulus.interval_s := hs; Stimulus.selector := Stimulus.HoldDone |} ]
      ∧ Stimulus.current_trial mid = i.
Proof.
  intros Hfade Hhold Hgap Hcfg Htimers n started.
  set (s0 := {| Stimulus.stim_config := Stimulus.stim_config s;
                Stimulus.current_trial := 0; Stimulus.view := Stimulus.view s;
                Stimulus.timers := Stimulus.timers s;
                Stimulus.callbacks := Stimulus.callbacks s |}).
  assert (Hstart : started = (Stimulus._run_next_trial clock s0).1) by done.
  assert (Hcfg0 : Stimulus.stim_config s0 = cfg) by done.
  assert (Ht0 : Stimulus.timers s0 = []) by done.
  split.
  - rewrite Hstart.
    rewrite (script_rest clock cfg iv hs gs Hfade Hhold Hgap (Z.to_nat n) s0);
      [|done|done|simpl; lia].
    simpl. f_equal. lia.
  - intros i Hi mid. subst mid. rewrite Hstart.
    destruct (decide (i = 1)) as [->|Hne].
    + simpl Z.to_nat. simpl Nat.add.
      assert (Hlt : Stimulus.current_trial s0 < Stimulus.stim_trials cfg)
        by (simpl; lia).
      destruct (trial_cycle clock cfg iv hs gs Hfade Hhold Hgap s0 Hcfg0 Ht0 Hlt)
        as (_ & H30 & _).
      rewrite H30. done.
    + replace (Z.to_nat (i - 1)) with (S (Z.to_nat (i - 2))) by lia.
      rewrite (fires_add clock).
      rewrite (script_progress clock cfg iv hs gs Hfade Hhold Hgap _ s0);
        [|done|done|simpl; lia].
      match goal with
      | |- context [Stimulus._run_next_trial clock ?x] => set (s1 := x)
      end.
      assert (Hlt : Stimulus.current_trial s1 < Stimulus.stim_trials cfg)
        by (simpl; lia).
      destruct (trial_cycle clock cfg iv hs gs Hfade Hhold Hgap s1
                  eq_refl eq_refl Hlt) as (_ & H30 & _).
      assert (Hnext : Stimulus.current_trial s1 + 1 = i)
        by (cbn [Stimulus.current_trial s1 s0]; lia).
      rewrite H30, Hnext. done.
Qed.

Lemma fade_script_runs_trials_witness :
  let s := {| Stimulus.stim_config := Stimulus.default_stimulus;
              Stimulus.current_trial := 0;
              Stimulus.view := {| Stimulus.alpha_value := 0; Stimulus.ci_image := None |};
              Stimulus.timers := []; Stimulus.callbacks := [] |} in
  let clock := λ i, 1000 * i in
  Stimulus.callbacks
    (Stimulus.fires clock (32 * Z.to_nat (Z.max 0 10))
       (Stimulus.run_fade_trials clock s).1)
  = Stimulus.trial_events clock Stimulus.default_stimulus 1 10.
Proof.
  intros s clock.
  destruct (fade_script_runs_trials clock Stimulus.default_stimulus
              0.05%float 1%float 1%float s) as [Hend _];
    [vm_compute; reflexivity..|reflexivity|reflexivity|].
  exact (f_equal Stimulus.callbacks Hend).
Defined.

(** X20: the payloads the script shows identify the trial: two trials
    have the same payload only if they are the same trial. *)
Theorem trial_payload_identifies cfg i j :
  Stimulus.trial_payload cfg i = Stimulus.trial_payload cfg j → i = j.
Proof.
  unfold Stimulus.trial_payload. intros Heq.
  apply (inj (String.app (Stimulus.payload_base cfg))) in Heq.
  apply (inj (String.app "-trial-")) in Heq.
  by apply (inj pretty) in Heq.
Qed.

Lemma trial_payload_identifies_witness : 3 = 3.
Proof.
  apply (trial_payload_identifies Stimulus.default_stimulus 3 3). reflexivity.
Defined.

(** ** The success rate *)

Section SuccessRate.
Import StatsRate.

Lemma rate_table : rates_upto 200 = true.
Proof. vm_compute. reflexivity. Qed.

Lemma rates_upto_spec n successes total :
  rates_upto n = true → 1 ≤ total ≤ n → 0 ≤ successes ≤ total →
  rate_ok successes total = true.
Proof.
  unfold rates_upto. intros Htab Ht Hs.
  rewrite forallb_forall in Htab.
  assert (Hrow : forallb (λ s, rate_ok s total) (seqZ 0 (total + 1)) = true).
  { apply Htab, list_elem_of_In, elem_of_seqZ. lia. }
  rewrite forallb_forall in Hrow.
  apply Hrow, list_elem_of_In, elem_of_seqZ. lia.
Qed.

Lemma rate_ok_upto successes total :
  0 ≤ successes ≤ total → 1 ≤ total ≤ 200 → rate_ok successes total = true.
Proof.
  intros Hs Ht. exact (rates_upto_spec 200 successes total rate_table Ht Hs).
Qed.

(** X21: for up to 200 rows, of which [successes] succeeded, the
    success rate is a float between 0.0 and 1.0; no rows give 0.0; with
    rows, the rate is 1.0 exactly when every row succeeded and 0.0
    exactly when none did. *)
Theorem success_rate_unit_interval successes total :
  0 ≤ successes ≤ total → total ≤ 200 →
  ∃ r, success_rate successes total = Some r
       ∧ (0 <=? r)%float = true ∧ (r <=? 1)%float = true
       ∧ ((r =? 0)%float = true ↔ successes = 0)
       ∧ (0 < total → ((r =? 1)%float = true ↔ successes = total)).
Proof.
  intros Hs Ht. destruct (decide (total = 0)) as [->|Hne].
  { exists 0%float. assert (successes = 0) as -> by lia.
    split; [reflexivity|]. split; [reflexivity|]. split; [reflexivity|].
    split; [split; reflexivity|]. intros Hlt. lia. }
  assert (Hpos : 1 ≤ total ≤ 200) by lia.
  pose proof (rate_ok_upto successes total Hs Hpos) as Hok.
  unfold rate_ok in Hok.
  destruct (success_rate successes total) as [r|]; [|discriminate Hok].
  apply andb_prop in Hok as [Hok H0]. apply andb_prop in Hok as [Hok H1].
  apply andb_prop in Hok as [Hge Hle].
  apply bool_decide_eq_true_1 in H0. apply bool_decide_eq_true_1 in H1.
  exists r. split; [reflexivity|]. split; [exact Hge|]. split; [exact Hle|].
  split; [exact H0|]. intros _. exact H1.
Qed.

Lemma success_rate_unit_interval_witness :
  ∃ r, success_rate 3 4 = Some r
       ∧ (0 <=? r)%float = true ∧ (r <=? 1)%float = true
       ∧ ((r =? 0)%float = true ↔ 3 = 0)
       ∧ (0 < 4 → ((r =? 1)%float = true ↔ 3 = 4)).
Proof. apply (success_rate_unit_interval 3 4); lia. Defined.

End SuccessRate.
